(** * Reconciliation core of the prometheus-juju-exporter charm

    A shallow embedding of [src/exporter.py] (configuration rendering and
    validation) and of [src/charm.py] (the [_configure] reconciliation pass),
    together with the properties of the specification stated over it.

    Python text is modelled as [string] (a sequence of bytes, read as ASCII
    text; bytes above 127 are carried through unchanged).  Python integers are
    [Z], without the interpreter's limit on the number of digits [int()] and
    [str()] convert; option values are [None], text, integers and booleans.
    Dictionaries whose textual form matters (the rendered document) are
    insertion-ordered association lists; dictionaries that are only looked up
    or compared (the charm options, the Pebble plan) are [gmap]s.

    A pass runs against an environment, which holds what the collaborators
    outside the two modules answer (the supervisor, the configuration target,
    the YAML serialiser, the agent configuration), and yields the charm
    afterwards together with the calls and log lines it made, in order. *)

From Stdlib Require Import ZArith Ascii String List Bool Lia DecimalString DecimalPos.
From stdpp Require Import base option gmap strings list fin_maps.

Local Open Scope string_scope.
Local Open Scope Z_scope.

(** ** Python text primitives *)

Module PyStr.

(** [s.startswith(p)] *)
Fixpoint startswith (p s : string) : bool :=
  match p, s with
  | EmptyString, _ => true
  | String a p', String b s' => if Ascii.eqb a b then startswith p' s' else false
  | String _ _, EmptyString => false
  end.

(** Drop the first [n] characters. *)
Fixpoint drop (n : nat) (s : string) : string :=
  match n, s with
  | O, _ => s
  | S n', String _ s' => drop n' s'
  | S _, EmptyString => EmptyString
  end.

(** [s.split(sep)] for a one-character separator: the pieces between the
    occurrences of [sep]; the empty string gives one empty piece. *)
Fixpoint split (sep : ascii) (s : string) : list string :=
  match s with
  | EmptyString => [EmptyString]
  | String c s' =>
      if Ascii.eqb c sep then EmptyString :: split sep s'
      else match split sep s' with
           | [] => [String c EmptyString]
           | piece :: rest => String c piece :: rest
           end
  end.

(** [sep.join(l)] *)
Fixpoint join (sep : string) (l : list string) : string :=
  match l with
  | [] => EmptyString
  | [x] => x
  | x :: rest => x ++ sep ++ join sep rest
  end.

(** [s.replace(old, new)]: every non-overlapping occurrence of [old],
    scanning from the left.  [fuel] bounds the scan and is the length of
    [s] plus one; with an empty [old], [new] is put before every character
    and at the end, as Python does. *)
Fixpoint replace_from (fuel : nat) (old new s : string) : string :=
  match fuel with
  | O => s
  | S fuel' =>
      match s with
      | EmptyString => if startswith old EmptyString then new else EmptyString
      | String c s' =>
          match old with
          | EmptyString => new ++ String c (replace_from fuel' old new s')
          | String _ _ =>
              if startswith old s
              then new ++ replace_from fuel' old new (drop (String.length old) s)
              else String c (replace_from fuel' old new s')
          end
      end
  end.

Definition replace (old new s : string) : string :=
  replace_from (S (String.length s)) old new s.

(** The characters [int()] strips around a number written in ASCII text:
    tab, line feed, vertical tab, form feed, carriage return and space. *)
Definition is_space (c : ascii) : bool :=
  let n := nat_of_ascii c in
  ((9 <=? n) && (n <=? 13) || (n =? 32))%nat.

Fixpoint lstrip (s : string) : string :=
  match s with
  | String c s' => if is_space c then lstrip s' else s
  | EmptyString => EmptyString
  end.

Fixpoint rev_string (acc s : string) : string :=
  match s with
  | EmptyString => acc
  | String c s' => rev_string (String c acc) s'
  end.

Definition rstrip (s : string) : string :=
  rev_string EmptyString (lstrip (rev_string EmptyString s)).

Definition strip (s : string) : string := rstrip (lstrip s).

(** [str(n)] for an integer. *)
Definition of_Z (n : Z) : string := NilZero.string_of_int (Z.to_int n).

Definition digit_of (c : ascii) : option Z :=
  let n := Z.of_nat (nat_of_ascii c) in
  if (48 <=? n) && (n <=? 57) then Some (n - 48) else None.

(** Digits of a decimal literal; a single underscore may separate two
    digits.  [prev_digit] tells whether the previous character was a
    digit. *)
Fixpoint digits (prev_digit : bool) (acc : Z) (s : string) : option Z :=
  match s with
  | EmptyString => if prev_digit then Some acc else None
  | String c s' =>
      match digit_of c with
      | Some d => digits true (10 * acc + d) s'
      | None =>
          if Ascii.eqb c "_" then
            if prev_digit then digits false acc s' else None
          else None
      end
  end.

(** [int(s)] for text: [None] stands for [ValueError]. *)
Definition to_Z (s : string) : option Z :=
  match strip s with
  | String c rest =>
      if Ascii.eqb c "-" then Z.opp <$> digits false 0 rest
      else if Ascii.eqb c "+" then digits false 0 rest
      else digits false 0 (String c rest)
  | EmptyString => None
  end.

Definition hex_digit (n : Z) : ascii :=
  ascii_of_nat (Z.to_nat (if n <? 10 then 48 + n else 87 + n)).

(** Two lower-case hexadecimal digits of a byte. *)
Definition hex_byte (b : Z) : string :=
  String (hex_digit (b / 16)) (String (hex_digit (b mod 16)) EmptyString).

(** [repr(s)]: single quotes unless the text has a single quote and no
    double quote; backslash, the quote in use, tab, newline and carriage
    return are escaped, other control characters are written [\xNN]. *)
Fixpoint contains (c : ascii) (s : string) : bool :=
  match s with
  | EmptyString => false
  | String d s' => Ascii.eqb c d || contains c s'
  end.

Definition dquote : ascii := ascii_of_nat 34.

Definition escape_char (quote c : ascii) : string :=
  let n := Z.of_nat (nat_of_ascii c) in
  if Ascii.eqb c quote || Ascii.eqb c "\" then String "\" (String c EmptyString)
  else if n =? 9 then "\t"
  else if n =? 10 then "\n"
  else if n =? 13 then "\r"
  else if (n <? 32) || (n =? 127) then "\x" ++ hex_byte n
  else String c EmptyString.

Fixpoint escape (quote : ascii) (s : string) : string :=
  match s with
  | EmptyString => EmptyString
  | String c s' => escape_char quote c ++ escape quote s'
  end.

Definition repr (s : string) : string :=
  let quote : ascii :=
    if contains "'" s && negb (contains dquote s) then dquote else "'"%char in
  String quote (escape quote s ++ String quote EmptyString).

End PyStr.


(** ** SHA-256, as [hashlib.sha256(data).hexdigest()]

    Words are 32-bit values carried in [Z]; every addition is reduced modulo
    [2^32]. *)

Module Sha256.

Definition w32 (x : Z) : Z := x mod 2 ^ 32.
Definition add32 (x y : Z) : Z := w32 (x + y).
Definition rotr (n x : Z) : Z :=
  Z.lor (Z.shiftr x n) (w32 (Z.shiftl x (32 - n))).
Definition not32 (x : Z) : Z := 2 ^ 32 - 1 - x.

Definition Ch (x y z : Z) : Z := Z.lxor (Z.land x y) (Z.land (not32 x) z).
Definition Maj (x y z : Z) : Z :=
  Z.lxor (Z.lxor (Z.land x y) (Z.land x z)) (Z.land y z).
Definition Sigma0 (x : Z) : Z := Z.lxor (Z.lxor (rotr 2 x) (rotr 13 x)) (rotr 22 x).
Definition Sigma1 (x : Z) : Z := Z.lxor (Z.lxor (rotr 6 x) (rotr 11 x)) (rotr 25 x).
Definition sigma0 (x : Z) : Z := Z.lxor (Z.lxor (rotr 7 x) (rotr 18 x)) (Z.shiftr x 3).
Definition sigma1 (x : Z) : Z := Z.lxor (Z.lxor (rotr 17 x) (rotr 19 x)) (Z.shiftr x 10).

(** The first 64 primes. *)
Definition primes : list Z :=
  [ 2; 3; 5; 7; 11; 13; 17; 19; 23; 29; 31; 37; 41; 43; 47; 53; 59; 61; 67;
    71; 73; 79; 83; 89; 97; 101; 103; 107; 109; 113; 127; 131; 137; 139; 149;
    151; 157; 163; 167; 173; 179; 181; 191; 193; 197; 199; 211; 223; 227;
    229; 233; 239; 241; 251; 257; 263; 269; 271; 277; 281; 283; 293; 307;
    311 ].

(** The integer cube root of a number below [2^(3 * bits)], one bit at a
    time from the top. *)
Fixpoint cube_root (bits : nat) (n r : Z) : Z :=
  match bits with
  | O => r
  | S b =>
      let r' := r + 2 ^ Z.of_nat b in
      cube_root b n (if r' * r' * r' <=? n then r' else r)
  end.

(** The round constants: the first 32 bits of the fractional parts of the
    cube roots of the primes. *)
Definition K : list Z :=
  Eval vm_compute in (fun p => w32 (cube_root 36 (p * 2 ^ 96) 0)) <$> primes.

Definition regs : Type := (Z * Z * Z * Z * Z * Z * Z * Z)%type.

(** The initial hash value: the first 32 bits of the fractional parts of the
    square roots of the first eight primes. *)
Definition H0 : regs :=
  Eval vm_compute in
    let h p := w32 (Z.sqrt (p * 2 ^ 64)) in
    (h 2, h 3, h 5, h 7, h 11, h 13, h 17, h 19).

Definition bytes_of (s : string) : list Z :=
  (fun c => Z.of_nat (nat_of_ascii c)) <$> list_ascii_of_string s.

(** The [n] low bytes of [x], most significant first. *)
Fixpoint be_bytes (n : nat) (x : Z) : list Z :=
  match n with
  | O => []
  | S n' => be_bytes n' (x / 256) ++ [x mod 256]
  end.

(** Message, a one bit, zeros up to 56 modulo 64, the bit length on 8 bytes. *)
Definition pad (msg : list Z) : list Z :=
  let len := Z.of_nat (length msg) in
  let zeros := Z.to_nat ((55 - len) mod 64) in
  msg ++ [0x80] ++ repeat 0 zeros ++ be_bytes 8 (8 * len).

Fixpoint words (n : nat) (bs : list Z) : list Z :=
  match n, bs with
  | S n', a :: b :: c :: d :: rest =>
      (((a * 256 + b) * 256 + c) * 256 + d) :: words n' rest
  | _, _ => []
  end.

(** The message schedule, latest word first: [w] holds [W(t-1) .. W(0)]. *)
Fixpoint schedule (n : nat) (w : list Z) : list Z :=
  match n with
  | O => w
  | S n' =>
      let nth i := List.nth i w 0 in
      let wt := add32 (add32 (sigma1 (nth 1%nat)) (nth 6%nat))
                      (add32 (sigma0 (nth 14%nat)) (nth 15%nat)) in
      schedule n' (wt :: w)
  end.

Definition round (r : regs) (kw : Z * Z) : regs :=
  let '(a, b, c, d, e, f, g, h) := r in
  let t1 := add32 (add32 (add32 h (Sigma1 e)) (add32 (Ch e f g) kw.1)) kw.2 in
  let t2 := add32 (Sigma0 a) (Maj a b c) in
  (add32 t1 t2, a, b, c, add32 d t1, e, f, g).

Definition compress (h : regs) (block : list Z) : regs :=
  let w := rev (schedule 48 (rev (words 16 block))) in
  let '(a, b, c, d, e, f, g, i) := foldl round h (zip K w) in
  let '(a0, b0, c0, d0, e0, f0, g0, i0) := h in
  (add32 a0 a, add32 b0 b, add32 c0 c, add32 d0 d,
   add32 e0 e, add32 f0 f, add32 g0 g, add32 i0 i).

Fixpoint blocks (n : nat) (h : regs) (bs : list Z) : regs :=
  match n with
  | O => h
  | S n' =>
      match bs with
      | [] => h
      | _ => blocks n' (compress h (firstn 64 bs)) (skipn 64 bs)
      end
  end.

Definition digest (s : string) : list Z :=
  let bs := pad (bytes_of s) in
  let '(a, b, c, d, e, f, g, h) :=
    blocks (length bs) H0 bs in
  concat (be_bytes 4 <$> [a; b; c; d; e; f; g; h]).

Definition hexdigest (s : string) : string :=
  foldr (fun b acc => PyStr.hex_byte b ++ acc) EmptyString (digest s).

End Sha256.

(** ** Python values and exceptions *)

(** The values a charm option can hold. *)
Inductive scalar : Type :=
| SNone
| SStr (s : string)
| SInt (n : Z)
| SBool (b : bool).

#[local] Set Warnings "-register-all".

(** The values of a configuration document.  A dictionary keeps its keys in
    insertion order, which is the order [str()] prints them in. *)
Inductive pyval : Type :=
| VAtom (a : scalar)
| VList (l : list pyval)
| VDict (d : list (string * pyval)).

Coercion VAtom : scalar >-> pyval.

Inductive exn_class : Type :=
| ExporterConfigError
| ValueError
| KeyError
| TypeError
| AttributeError
| ConnectionError        (* the built-in class and its subclasses *)
| RuntimeError
| Base64Error
| PrometheusConfigError
| OtherError.            (* any other class, such as the Pebble client's *)

Record exn : Type := Exn { exn_cls : exn_class; exn_msg : string }.

Inductive result (A : Type) : Type :=
| Ok (a : A)
| Raise (e : exn).
Arguments Ok {A} a.
Arguments Raise {A} e.

#[global] Instance exn_class_eq_dec : EqDecision exn_class.
Proof. solve_decision. Defined.

Definition bind_result {A B} (r : result A) (k : A → result B) : result B :=
  match r with
  | Ok a => k a
  | Raise e => Raise e
  end.

Module Py.

Definition newline : string := String (ascii_of_nat 10) EmptyString.

(** [os.linesep] on the platform the charm runs on. *)
Definition linesep : string := newline.

(** [bool(v)] *)
Definition truthy (v : pyval) : bool :=
  match v with
  | VAtom SNone => false
  | VAtom (SStr s) => negb (String.eqb s EmptyString)
  | VAtom (SInt n) => negb (n =? 0)
  | VAtom (SBool b) => b
  | VList l => match l with [] => false | _ => true end
  | VDict d => match d with [] => false | _ => true end
  end.

Definition type_name (v : pyval) : string :=
  match v with
  | VAtom SNone => "NoneType"
  | VAtom (SStr _) => "str"
  | VAtom (SInt _) => "int"
  | VAtom (SBool _) => "bool"
  | VList _ => "list"
  | VDict _ => "dict"
  end.

Definition repr_scalar (a : scalar) : string :=
  match a with
  | SNone => "None"
  | SStr s => PyStr.repr s
  | SInt n => PyStr.of_Z n
  | SBool true => "True"
  | SBool false => "False"
  end.

(** [repr(v)] *)
Fixpoint repr (v : pyval) : string :=
  match v with
  | VAtom a => repr_scalar a
  | VList l => "[" ++ PyStr.join ", " (repr <$> l) ++ "]"
  | VDict d =>
      "{" ++ PyStr.join ", "
               ((fun kv => PyStr.repr kv.1 ++ ": " ++ repr kv.2) <$> d) ++ "}"
  end.

(** [str(v)]: text prints as itself, everything else as its [repr]. *)
Definition str (v : pyval) : string :=
  match v with
  | VAtom (SStr s) => s
  | _ => repr v
  end.

(** First binding of [k] in a dictionary. *)
Fixpoint lookup (k : string) (d : list (string * pyval)) : option pyval :=
  match d with
  | [] => None
  | (k', v) :: rest => if String.eqb k k' then Some v else lookup k rest
  end.

Definition attribute_error (v : pyval) (attr : string) : exn :=
  Exn AttributeError
      ("'" ++ type_name v ++ "' object has no attribute '" ++ attr ++ "'").

(** [v.get(k, default)] *)
Definition get (v : pyval) (k : string) (dflt : pyval) : result pyval :=
  match v with
  | VDict d => Ok (default dflt (lookup k d))
  | _ => Raise (attribute_error v "get")
  end.

(** [v[k]] for a text key [k] *)
Definition subscript (v : pyval) (k : string) : result pyval :=
  match v with
  | VDict d =>
      match lookup k d with
      | Some x => Ok x
      | None => Raise (Exn KeyError (PyStr.repr k))
      end
  | VList _ => Raise (Exn TypeError "list indices must be integers or slices, not str")
  | VAtom (SStr _) => Raise (Exn TypeError "string indices must be integers")
  | _ => Raise (Exn TypeError ("'" ++ type_name v ++ "' object is not subscriptable"))
  end.

(** [int(v)] *)
Definition int (v : pyval) : result Z :=
  match v with
  | VAtom (SInt n) => Ok n
  | VAtom (SBool b) => Ok (if b then 1 else 0)
  | VAtom (SStr s) =>
      match PyStr.to_Z s with
      | Some n => Ok n
      | None =>
          Raise (Exn ValueError
                     ("invalid literal for int() with base 10: " ++ PyStr.repr s))
      end
  | _ =>
      Raise (Exn TypeError
                 ("int() argument must be a string, a bytes-like object or a real number, not '"
                    ++ type_name v ++ "'"))
  end.

(** [v.split(",")]: only text has the method. *)
Definition split_commas (v : pyval) : result pyval :=
  match v with
  | VAtom (SStr s) => Ok (VList ((fun p => VAtom (SStr p)) <$> PyStr.split "," s))
  | _ => Raise (attribute_error v "split")
  end.

End Py.

(** ** [exporter.py]: rendering and validating the exporter configuration *)

Module Exporter.

(** [class ExporterConfig(NamedTuple)]: every field defaults to [None]. *)
Record ExporterConfig : Type := {
  debug : scalar;
  customer : scalar;
  cloud : scalar;
  controller : scalar;
  ca_cert : scalar;
  user : scalar;
  password : scalar;
  interval : scalar;
  port : scalar;
  prefixes : scalar;
  match_interfaces : scalar;
}.

Definition ExporterConfig_default : ExporterConfig :=
  {| debug := SNone; customer := SNone; cloud := SNone; controller := SNone;
     ca_cert := SNone; user := SNone; password := SNone; interval := SNone;
     port := SNone; prefixes := SNone; match_interfaces := SNone |}.

(** [ExporterConfig.controller_endpoint] *)
Definition controller_endpoint (self : ExporterConfig) : result pyval :=
  match controller self with
  | SNone => Ok (VAtom (SStr ""))
  | SStr "" => Ok (VAtom (SStr ""))
  | c => Py.split_commas (VAtom c)
  end.

(** [ExporterConfig.render] *)
Definition render (self : ExporterConfig) : result pyval :=
  bind_result (controller_endpoint self) (fun endpoint =>
  bind_result (if Py.truthy (VAtom (prefixes self))
               then Py.split_commas (VAtom (prefixes self))
               else Ok (VList [])) (fun virt_macs =>
  Ok (VDict
    [ ("debug", VAtom (debug self));
      ("customer", VDict
         [ ("name", VAtom (customer self));
           ("cloud_name", VAtom (cloud self)) ]);
      ("juju", VDict
         [ ("controller_endpoint", endpoint);
           ("controller_cacert", VAtom (ca_cert self));
           ("username", VAtom (user self));
           ("password", VAtom (password self)) ]);
      ("exporter", VDict
         [ ("collect_interval", VAtom (interval self));
           ("port", VAtom (port self)) ]);
      ("detection", VDict
         [ ("virt_macs", virt_macs);
           ("match_interfaces",
             if Py.truthy (VAtom (match_interfaces self))
             then VAtom (match_interfaces self)
             else VAtom (SStr ".*")) ]) ]))).

(** [ExporterOCI._REQUIRED_CONFIG] *)
Definition _REQUIRED_CONFIG : list string :=
  [ "customer.name";
    "customer.cloud_name";
    "juju.controller_endpoint";
    "juju.controller_cacert";
    "juju.username";
    "juju.password";
    "exporter.port";
    "exporter.collect_interval";
    "detection.virt_macs";
    "detection.match_interfaces" ].

(** The inner loop of [_validate_required_options]: follow the identifiers
    of a dotted option with [get(identifier, {})]. *)
Fixpoint walk (config_value : pyval) (identifiers : list string) : result pyval :=
  match identifiers with
  | [] => Ok config_value
  | identifier :: rest =>
      bind_result (Py.get config_value identifier (VDict [])) (fun v => walk v rest)
  end.

Definition option_value (config : pyval) (option : string) : result pyval :=
  walk config (PyStr.split "." option).

(** The outer loop, over any list of options. *)
Fixpoint missing_among (options : list string) (config : pyval) : result (list string) :=
  match options with
  | [] => Ok []
  | option :: rest =>
      bind_result (option_value config option) (fun config_value =>
      bind_result (missing_among rest config) (fun missing_options =>
      Ok (if negb (Py.truthy config_value)
          then option :: missing_options
          else missing_options)))
  end.

(** [ExporterOCI._validate_required_options] *)
Definition _validate_required_options (config : pyval) : result (list string) :=
  missing_among _REQUIRED_CONFIG config.

Definition msg_port_not_a_number : string :=
  "Configuration option 'port' must be a number." ++ Py.linesep.

Definition msg_port_invalid (port : Z) : string :=
  "Port " ++ PyStr.of_Z port ++ " is not valid port number." ++ Py.linesep.

Definition msg_interval_not_positive : string :=
  "Configuration option 'collect_interval' must be a positive number." ++ Py.linesep.

Definition msg_interval_not_a_number : string :=
  "Configuration option 'collect_interval' must be a number." ++ Py.linesep.

(** A [try] block whose handlers are [except ValueError] (add [on_value]
    to the errors) and [except KeyError: pass]; any other exception
    leaves the function. *)
Definition guarded (body : result string) (on_value : string) : result string :=
  match body with
  | Ok errors => Ok errors
  | Raise e =>
      match exn_cls e with
      | ValueError => Ok on_value
      | KeyError => Ok ""
      | _ => Raise e
      end
  end.

(** The first [try] block of [_validate_option_values]: what it adds to
    [errors]. *)
Definition check_port (config : pyval) : result string :=
  guarded
    (bind_result (Py.subscript config "exporter") (fun section =>
     bind_result (Py.subscript section "port") (fun raw =>
     bind_result (Py.int raw) (fun port =>
     Ok (if negb ((0 <? port) && (port <? 65535))
         then msg_port_invalid port
         else "")))))
    msg_port_not_a_number.

(** The second [try] block. *)
Definition check_interval (config : pyval) : result string :=
  guarded
    (bind_result (Py.subscript config "exporter") (fun section =>
     bind_result (Py.subscript section "collect_interval") (fun raw =>
     bind_result (Py.int raw) (fun collect_interval =>
     Ok (if collect_interval <? 1
         then msg_interval_not_positive
         else "")))))
    msg_interval_not_a_number.

(** [ExporterOCI._validate_option_values] *)
Definition _validate_option_values (config : pyval) : result string :=
  bind_result (check_port config) (fun port_errors =>
  bind_result (check_interval config) (fun interval_errors =>
  Ok ("" ++ port_errors ++ interval_errors))).

Definition msg_missing (missing_options : list string) : string :=
  "Following config options are missing: "
    ++ PyStr.join ", " missing_options ++ Py.linesep.

(** [ExporterOCI.validate_config]: [Ok tt] when it returns, [Raise] with
    the exception it lets out otherwise. *)
Definition validate_config (config : pyval) : result unit :=
  bind_result (_validate_required_options config) (fun missing_options =>
  let errors := match missing_options with
                | [] => ""
                | _ => msg_missing missing_options
                end in
  bind_result (_validate_option_values config) (fun value_errors =>
  let errors := errors ++ value_errors in
  if negb (String.eqb errors "")
  then Raise (Exn ExporterConfigError errors)
  else Ok tt)).

End Exporter.

(** ** [charm.py]: the reconciliation pass *)

Module Charm.

Import Exporter.

(** The statuses of [ops.model]. *)
Inductive status : Type :=
| ActiveStatus (message : string)
| BlockedStatus (message : string)
| WaitingStatus (message : string)
| MaintenanceStatus (message : string)
| UnknownStatus.

Definition is_active (s : status) : bool :=
  match s with ActiveStatus _ => true | _ => false end.


Inductive level : Type := DEBUG | INFO | ERROR.

(** A Pebble service as its dictionary of fields, and the services of a
    plan or layer by name.  Both are compared as dictionaries are, keys in
    any order. *)
Abbreviation service := (gmap string string).
Abbreviation services := (gmap string (gmap string string)).

(** What a pass does to the outside, in the order it does it.  A call to a
    collaborator is recorded when it is made, whether or not it succeeds. *)
Inductive event : Type :=
| EvLog (lvl : level) (msg : string)
| EvStatus (s : status)
| EvPush (path data : string)
| EvAddLayer (label : string) (layer : services)
| EvRestart (name : string)
| EvScrapeTarget (port : scalar) (path interval timeout : string)
| EvClosePort (port protocol : string)
| EvOpenPort (port : scalar).

(** The charm instance with the state of the collaborators it changes:
    [self.unit.status], [self.current_config_hash] ([None] after
    [__init__]) and the services of the container's plan. *)
Record charm : Type := {
  unit_status : status;
  current_config_hash : option string;
  plan : services;
}.

(** What the collaborators answer during one pass. *)
Record env : Type := {
  can_connect : bool;                      (* container.can_connect() *)
  config : gmap string scalar;             (* self.config *)
  b64decode_ascii : scalar → result scalar;
    (* b64decode(cert, validate=True).decode(encoding="ascii") *)
  agent_cacert : result scalar;
    (* yaml.safe_load of agent.conf, then .get("cacert") *)
  safe_dump : pyval → string;              (* yaml.safe_dump *)
  push_error : option exn;                 (* container.push *)
  get_plan_error : option exn;             (* container.get_plan *)
  add_layer_error : option exn;            (* container.add_layer *)
  restart_error : option exn;              (* container.restart *)
  expose_error : option exn;               (* expose_scrape_target *)
  opened_ports : list string;              (* hookenv.opened_ports() *)
}.

(** Computations of the charm: a result or an exception, the charm
    afterwards, and the events emitted. *)
Definition M (A : Type) : Type := charm → result A * charm * list event.

#[global] Instance M_ret : MRet M := fun A a st => (Ok a, st, []).

#[global] Instance M_bind : MBind M := fun A B k m st =>
  match m st with
  | (Ok a, st', evs) =>
      let '(r, st'', evs') := k a st' in (r, st'', (evs ++ evs')%list)
  | (Raise e, st', evs) => (Raise e, st', evs)
  end.

Definition raise {A} (e : exn) : M A := fun st => (Raise e, st, []).

Definition lift {A} (r : result A) : M A := fun st => (r, st, []).

(** [try: body  except ...: handler] *)
Definition try_except {A} (body : M A) (handler : exn → M A) : M A := fun st =>
  match body st with
  | (Ok a, st', evs) => (Ok a, st', evs)
  | (Raise e, st', evs) =>
      let '(r, st'', evs') := handler e st' in (r, st'', (evs ++ evs')%list)
  end.

Definition emit (ev : event) : M unit := fun st => (Ok tt, st, [ev]).

Definition log (lvl : level) (msg : string) : M unit := emit (EvLog lvl msg).

Definition get_status : M status := fun st => (Ok (unit_status st), st, []).

(** [self.unit.status = s] *)
Definition set_status (s : status) : M unit := fun st =>
  (Ok tt,
   {| unit_status := s;
      current_config_hash := current_config_hash st;
      plan := plan st |},
   [EvStatus s]).

Definition get_hash : M (option string) :=
  fun st => (Ok (current_config_hash st), st, []).

(** [self.current_config_hash = h] *)
Definition set_hash (h : string) : M unit := fun st =>
  (Ok tt,
   {| unit_status := unit_status st;
      current_config_hash := Some h;
      plan := plan st |},
   []).

(** A call to a collaborator that either succeeds or raises. *)
Definition call (ev : event) (outcome : option exn) : M unit := fun st =>
  (match outcome with None => Ok tt | Some e => Raise e end, st, [ev]).

(** [OCI_CONFIG_MAP.items()], in the order the class body lists them. *)
Definition OCI_CONFIG_MAP : list (string * string) :=
  [ ("debug", "debug");
    ("customer", "customer.name");
    ("cloud-name", "customer.cloud_name");
    ("controller-url", "juju.controller_endpoint");
    ("juju-user", "juju.username");
    ("juju-password", "juju.password");
    ("scrape-interval", "exporter.collect_interval");
    ("scrape-port", "exporter.port");
    ("virtual-macs", "detection.virt_macs");
    ("match-interfaces", "detection.match_interfaces") ].

Definition OCI_NAME : string := "prometheus-juju-exporter".
Definition OCI_CONFIG_DIR : string := "/var/lib/" ++ OCI_NAME.
Definition OCI_CONFIG_PATH : string := OCI_CONFIG_DIR ++ "/config.yaml".

(** [self.name] *)
Definition name : string := "pje".

(** [self.config.get(key)] *)
Definition config_get (e : env) (key : string) : scalar :=
  default SNone (config e !! key).

(** [self.config[key]] *)
Definition config_item (e : env) (key : string) : M scalar :=
  match config e !! key with
  | Some v => mret v
  | None => raise (Exn KeyError (PyStr.repr key))
  end.

(** [get_controller_ca_cert] *)
Definition get_controller_ca_cert (e : env) : M scalar :=
  let explicit_cert := default (SStr "") (config e !! "controller-ca-cert") in
  if Py.truthy (VAtom explicit_cert) then
    try_except (lift (b64decode_ascii e explicit_cert)) (fun exc =>
      match exn_cls exc with
      | Base64Error =>
          log ERROR ("Config option 'controller-ca-cert' does not contain valid base64-encoded"
                       ++ " data. Bad data: " ++ Py.str (VAtom explicit_cert));;
          raise (Exn RuntimeError "Invalid base64 value in 'controller-ca-cert' option.")
      | _ => raise exc
      end)
  else
    ca_cert ← lift (agent_cacert e);
    if negb (Py.truthy (VAtom ca_cert))
    then raise (Exn RuntimeError "Charm failed to fetch controller's CA certificate.")
    else mret ca_cert.

(** [generate_exporter_config]: the [ExporterConfig] the options give. *)
Definition exporter_config_of (e : env) (cert : scalar) : ExporterConfig :=
  {| debug := config_get e "debug";
     customer := config_get e "customer";
     cloud := config_get e "cloud-name";
     controller := config_get e "controller-url";
     ca_cert := cert;
     user := config_get e "juju-user";
     password := config_get e "juju-password";
     interval := config_get e "scrape-interval";
     port := config_get e "scrape-port";
     prefixes := config_get e "virtual-macs";
     match_interfaces := config_get e "match-interfaces" |}.

Definition generate_exporter_config (e : env) : M pyval :=
  cert ← get_controller_ca_cert e;
  lift (render (exporter_config_of e cert)).

(** [value * 60] *)
Definition times_60 (v : scalar) : result scalar :=
  match v with
  | SInt n => Ok (SInt (n * 60))
  | SBool b => Ok (SInt ((if b then 1 else 0) * 60))
  | SStr s => Ok (SStr (foldr (fun _ acc => s ++ acc) "" (seq 0 60)))
  | SNone => Raise (Exn TypeError "unsupported operand type(s) for *: 'NoneType' and 'int'")
  end.

(** [reconfigure_scrape_target] *)
Definition reconfigure_scrape_target (e : env) : M unit :=
  port ← config_item e "scrape-port";
  interval_minutes ← config_item e "scrape-interval";
  interval ← lift (times_60 interval_minutes);
  timeout ← config_item e "scrape-timeout";
  try_except
    (call (EvScrapeTarget port "/metrics"
             (Py.str (VAtom interval) ++ "s") (Py.str (VAtom timeout) ++ "s"))
          (expose_error e))
    (fun exc =>
       match exn_cls exc with
       | PrometheusConfigError =>
           log ERROR ("Failed to configure prometheus scrape target: " ++ exn_msg exc);;
           raise exc
       | _ => raise exc
       end).

(** The loop of [reconfigure_open_ports] over [hookenv.opened_ports()]. *)
Fixpoint close_ports (specs : list string) : M unit :=
  match specs with
  | [] => mret tt
  | port_spec :: rest =>
      match PyStr.split "/" port_spec with
      | [old_port; protocol] =>
          log DEBUG ("Setting port " ++ old_port ++ " as closed.");;
          emit (EvClosePort old_port protocol);;
          close_ports rest
      | [_] => raise (Exn ValueError "not enough values to unpack (expected 2, got 1)")
      | _ => raise (Exn ValueError "too many values to unpack (expected 2)")
      end
  end.

(** [reconfigure_open_ports] *)
Definition reconfigure_open_ports (e : env) : M unit :=
  new_port ← config_item e "scrape-port";
  close_ports (opened_ports e);;
  log DEBUG ("Setting port " ++ Py.str (VAtom new_port) ++ " as opened.");;
  emit (EvOpenPort new_port).

(** [ExporterOCI.apply_config]: validate, then serialise. *)
Definition apply_config (e : env) (exporter_config : pyval) : M string :=
  log INFO "Updating exporter service configuration.";;
  lift (validate_config exporter_config);;
  let ret := safe_dump e exporter_config in
  log INFO "Exporter configuration updated.";;
  mret ret.

(** [_build_layer().services] *)
Definition _build_layer : services :=
  {[ name :=
       list_to_map
         [ ("override", "replace");
           ("summary", "prometheus-juju-exporter service");
           ("command", "/bin/python3 -m prometheus_juju_exporter.cli");
           ("startup", "enabled") ] ]}.

(** [container.add_layer(label, layer, combine=True)]: when Pebble accepts
    the layer, its services replace the ones of the same name in the
    plan. *)
Definition add_layer (e : env) (label : string) (layer : services) : M unit :=
  fun st =>
    match add_layer_error e with
    | Some exc => (Raise exc, st, [EvAddLayer label layer])
    | None =>
        (Ok tt,
         {| unit_status := unit_status st;
            current_config_hash := current_config_hash st;
            plan := layer ∪ plan st |},
         [EvAddLayer label layer])
    end.

(** [container.get_plan().services] *)
Definition get_plan_services (e : env) : M services := fun st =>
  match get_plan_error e with
  | Some exc => (Raise exc, st, [])
  | None => (Ok (plan st), st, [])
  end.

(** [restart_pje] *)
Definition restart_pje (e : env) : M unit :=
  let layer := _build_layer in
  try_except
    (add_layer e name layer;;
     log INFO ("Added updated layer '" ++ name ++ "' to Pebble plan");;
     call (EvRestart name) (restart_error e);;
     log INFO ("Restarted " ++ name ++ " service");;
     set_status (ActiveStatus ""))
    (fun exc =>
       log ERROR ("Could not restart prometheus-juju-exporter and build new layer: "
                    ++ exn_msg exc)).

(** The loop of the [ExporterConfigError] handler: replace every exporter
    option name by the charm option mapped to it. *)
Definition translate (err_msg : string) : string :=
  foldl (fun msg '(charm_option, oci_option) =>
           PyStr.replace oci_option charm_option msg)
        err_msg OCI_CONFIG_MAP.

Definition str_of_hash (h : option string) : string :=
  match h with Some s => s | None => "None" end.

(** The body of [if exporter_config_hash != self.current_config_hash].
    [Some restart] carries on with the pass; [None] is the [return] of the
    [ExporterConfigError] handler. *)
Definition apply_changed (e : env) (exporter_config : pyval)
    (exporter_config_hash : string) : M (option bool) :=
  log INFO "inside hash compare";;
  try_except
    (config_data ← apply_config e exporter_config;
     log INFO ("config_data: " ++ config_data);;
     call (EvPush OCI_CONFIG_PATH config_data) (push_error e);;
     log INFO ("push: " ++ OCI_CONFIG_PATH);;
     set_hash exporter_config_hash;;
     mret (Some true))
    (fun exc =>
       match exn_cls exc with
       | ExporterConfigError =>
           let err_msg := translate (exn_msg exc) in
           log ERROR err_msg;;
           set_status (BlockedStatus "Invalid configuration. Please see logs.");;
           mret None
       | ConnectionError =>
           log ERROR "Could not push datasource config. Pebble refused connection. Shutting down?";;
           mret (Some true)
       | _ => raise exc
       end).

(** [hashlib.sha256(str(exporter_config).encode("utf-8")).hexdigest()] *)
Definition fingerprint (exporter_config : pyval) : string :=
  Sha256.hexdigest (Py.str exporter_config).

(** [_configure] from the comparison of the plan on. *)
Definition converge (e : env) (restart : bool) : M unit :=
  installed ← get_plan_services e;
  let restart := if bool_decide (installed ≠ _build_layer) then true else restart in
  reconfigure_scrape_target e;;
  reconfigure_open_ports e;;
  log INFO ("restart: " ++ (if restart then "True" else "False"));;
  if restart then restart_pje e
  else
    current ← get_status;
    if negb (is_active current) then set_status (ActiveStatus "") else mret tt.

(** [_configure] *)
Definition _configure (e : env) : M unit :=
  if negb (can_connect e) then mret tt
  else
    log INFO "Processing new charm configuration.";;
    set_status (MaintenanceStatus "Processing new charm configuration.");;
    exporter_config ← generate_exporter_config e;
    let exporter_config_hash := fingerprint exporter_config in
    log INFO ("exporter_config_hash: " ++ exporter_config_hash);;
    current_hash ← get_hash;
    log INFO ("current_config_hash: " ++ str_of_hash current_hash);;
    proceed ← (if bool_decide (Some exporter_config_hash ≠ current_hash)
               then apply_changed e exporter_config exporter_config_hash
               else mret (Some false));
    match proceed with
    | None => mret tt
    | Some restart => converge e restart
    end.

End Charm.

(** ** Vocabulary of the statements *)

Module Observe.

Import Charm.



(** The charm with another status. *)
Definition with_status (st : charm) (s : status) : charm :=
  {| unit_status := s;
     current_config_hash := current_config_hash st;
     plan := plan st |}.

(** The charm with another stored fingerprint. *)
Definition with_hash (st : charm) (h : string) : charm :=
  {| unit_status := unit_status st;
     current_config_hash := Some h;
     plan := plan st |}.

(** The charm after Pebble has taken a layer. *)
Definition with_layer (st : charm) (layer : services) : charm :=
  {| unit_status := unit_status st;
     current_config_hash := current_config_hash st;
     plan := layer ∪ plan st |}.

Definition maintenance : status :=
  MaintenanceStatus "Processing new charm configuration.".

Definition blocked : status :=
  BlockedStatus "Invalid configuration. Please see logs.".

(** What a pass emits up to the comparison of the fingerprints. *)
Definition pass_head (st : charm) (h : string) : list event :=
  [ EvLog INFO "Processing new charm configuration.";
    EvStatus maintenance;
    EvLog INFO ("exporter_config_hash: " ++ h);
    EvLog INFO ("current_config_hash: " ++ str_of_hash (current_config_hash st)) ].

(** What the apply step emits before it validates. *)
Definition apply_head : list event :=
  [ EvLog INFO "inside hash compare";
    EvLog INFO "Updating exporter service configuration." ].

(** What it emits from the validation to the write, the write included. *)
Definition pushed_events (e : env) (doc : pyval) : list event :=
  [ EvLog INFO "Exporter configuration updated.";
    EvLog INFO ("config_data: " ++ safe_dump e doc);
    EvPush OCI_CONFIG_PATH (safe_dump e doc) ].

(** The log line of the handler of [restart_pje]. *)
Definition restart_failed_text (exc : exn) : string :=
  "Could not restart prometheus-juju-exporter and build new layer: " ++ exn_msg exc.

Definition restart_failed (exc : exn) : event :=
  EvLog ERROR (restart_failed_text exc).

(** The log line of the restart decision. *)
Definition restart_line (restart : bool) : event :=
  EvLog INFO ("restart: " ++ (if restart then "True" else "False")).

(** The log line of the [ConnectionError] handler. *)
Definition push_refused : event :=
  EvLog ERROR "Could not push datasource config. Pebble refused connection. Shutting down?".

(** Events that touch neither the configuration target, nor the supervisor,
    nor the status. *)
Definition is_side_event (ev : event) : bool :=
  match ev with
  | EvLog _ _ | EvScrapeTarget _ _ _ _ | EvClosePort _ _ | EvOpenPort _ => true
  | _ => false
  end.

(** The supervisor rejects the installation or the restart with [exc]. *)
Definition rejects (e : env) (exc : exn) : Prop :=
  add_layer_error e = Some exc
  ∨ (add_layer_error e = None ∧ restart_error e = Some exc).

(** The apply step does not end the pass: the fingerprint is the stored
    one, or the document is valid and the write succeeds or fails with a
    [ConnectionError]. *)
Definition goes_on (e : env) (doc : pyval) (st : charm) : Prop :=
  Some (fingerprint doc) = current_config_hash st
  ∨ (Exporter.validate_config doc = Ok tt
     ∧ (push_error e = None
        ∨ ∃ x, push_error e = Some x ∧ exn_cls x = ConnectionError)).

Abbreviation side_events evs := (Forall (fun ev => is_side_event ev = true) evs).

(** The charm option [OCI_CONFIG_MAP] maps to an exporter option, or the
    exporter option itself when the map has none for it. *)
Definition charm_option_of (oci_option : string) : string :=
  match List.find (fun kv => String.eqb kv.2 oci_option) OCI_CONFIG_MAP with
  | Some kv => kv.1
  | None => oci_option
  end.

(** The lists obtained by dropping elements of a list. *)
Fixpoint sublists {A} (l : list A) : list (list A) :=
  match l with
  | [] => [[]]
  | x :: rest => (cons x <$> sublists rest) ++ sublists rest
  end.


(** Writes of the rendered document to the configuration target. *)
Definition is_push (ev : event) : bool :=
  match ev with EvPush _ _ => true | _ => false end.

(** Installations of the process definition. *)
Definition is_add_layer (ev : event) : bool :=
  match ev with EvAddLayer _ _ => true | _ => false end.

(** Restart requests to the supervisor. *)
Definition is_restart (ev : event) : bool :=
  match ev with EvRestart _ => true | _ => false end.

Definition applies (evs : list event) : nat := length (List.filter is_push evs).
Definition installs (evs : list event) : nat := length (List.filter is_add_layer evs).
Definition restarts (evs : list event) : nat := length (List.filter is_restart evs).

(** The statuses written, in order. *)
Fixpoint status_writes (evs : list event) : list status :=
  match evs with
  | [] => []
  | EvStatus s :: rest => s :: status_writes rest
  | _ :: rest => status_writes rest
  end.

(** The messages logged at a level, in order. *)
Fixpoint logged (lvl : level) (evs : list event) : list string :=
  match evs with
  | [] => []
  | EvLog l msg :: rest =>
      match lvl, l with
      | DEBUG, DEBUG | INFO, INFO | ERROR, ERROR => msg :: logged lvl rest
      | _, _ => logged lvl rest
      end
  | _ :: rest => logged lvl rest
  end.

(** A computation that, from every state, returns [a], leaves the charm as
    it was and emits [evs]. *)
Definition returns {A} (m : M A) (a : A) (evs : list event) : Prop :=
  ∀ st, m st = (Ok a, st, evs).

(** Number of lines of a text: its line separators. *)
Fixpoint line_count (s : string) : nat :=
  match s with
  | EmptyString => O
  | String c s' =>
      if Ascii.eqb c (ascii_of_nat 10) then S (line_count s') else line_count s'
  end.

(** The list [render] makes of a text. *)
Definition pieces (s : string) : pyval :=
  VList ((fun p => VAtom (SStr p)) <$> PyStr.split "," s).

(** One when the text is not empty. *)
Definition present (s : string) : nat := if String.eqb s "" then O else 1%nat.

Definition of_text (s : option string) : scalar :=
  match s with
  | None => SNone
  | Some t => SStr t
  end.





End Observe.

(** ** The specification's own wording, for comparison *)

Module Spec.

(** The comma-list derivation as the specification words it: split on
    [","], every element trimmed of surrounding whitespace, the empty or
    absent input giving the empty list. *)
Definition comma_list (raw : option string) : list string :=
  match raw with
  | None => []
  | Some EmptyString => []
  | Some s => PyStr.strip <$> PyStr.split "," s
  end.

End Spec.

(** ** Sample configurations *)

Module Samples.

Import Exporter.

(** Spaces around the commas of both lists. *)
Definition cfg_spaced : ExporterConfig :=
  {| debug := SBool false; customer := SStr "acme"; cloud := SStr "lab";
     controller := SStr "10.0.0.1:17070, 10.0.0.2:17070"; ca_cert := SStr "CERT";
     user := SStr "admin"; password := SStr "secret"; interval := SInt 15;
     port := SInt 5000; prefixes := SStr "52:54:00 ,fa:16:3e";
     match_interfaces := SStr "^(en|eth)" |}.

(** No customer name and no cloud name, everything else in order. *)
Definition cfg_two_missing : ExporterConfig :=
  {| debug := SBool false; customer := SNone; cloud := SStr "";
     controller := SStr "10.0.0.1:17070"; ca_cert := SStr "CERT";
     user := SStr "admin"; password := SStr "secret"; interval := SInt 15;
     port := SInt 5000; prefixes := SStr "52:54:00";
     match_interfaces := SStr "^(en|eth)" |}.

(** No customer name and the port text ["99999"]. *)
Definition cfg_no_customer_big_port : ExporterConfig :=
  {| debug := SBool false; customer := SNone; cloud := SStr "lab";
     controller := SStr "10.0.0.1:17070"; ca_cert := SStr "CERT";
     user := SStr "admin"; password := SStr "secret"; interval := SInt 15;
     port := SStr "99999"; prefixes := SStr "52:54:00";
     match_interfaces := SStr "^(en|eth)" |}.



(** The document [render] gives, or the empty dictionary when it raises. *)
Definition rendered (c : ExporterConfig) : pyval :=
  match render c with
  | Ok doc => doc
  | Raise _ => VDict []
  end.

(** An empty controller text and no prefix text. *)
Definition cfg_no_lists : ExporterConfig :=
  {| debug := SBool false; customer := SStr "acme"; cloud := SStr "lab";
     controller := SStr ""; ca_cert := SStr "CERT";
     user := SStr "admin"; password := SStr "secret"; interval := SInt 15;
     port := SInt 5000; prefixes := SNone;
     match_interfaces := SStr "^(en|eth)" |}.

(** *** Sample passes *)

Import Charm.

Definition options_valid : gmap string scalar :=
  list_to_map
    [ ("debug", SBool false); ("customer", SStr "acme"); ("cloud-name", SStr "lab");
      ("controller-url", SStr "10.0.0.1:17070,10.0.0.2:17070");
      ("juju-user", SStr "admin"); ("juju-password", SStr "secret");
      ("scrape-interval", SInt 15); ("scrape-port", SInt 5000);
      ("scrape-timeout", SInt 30); ("virtual-macs", SStr "52:54:00");
      ("match-interfaces", SStr "^(en|eth)") ].

(** No [customer] option and the port text ["99999"]. *)
Definition options_invalid : gmap string scalar :=
  list_to_map
    [ ("debug", SBool false); ("cloud-name", SStr "lab");
      ("controller-url", SStr "10.0.0.1:17070,10.0.0.2:17070");
      ("juju-user", SStr "admin"); ("juju-password", SStr "secret");
      ("scrape-interval", SInt 15); ("scrape-port", SStr "99999");
      ("scrape-timeout", SInt 30); ("virtual-macs", SStr "52:54:00");
      ("match-interfaces", SStr "^(en|eth)") ].

(** An environment whose supervisor is connected, whose agent configuration
    holds the certificate and whose other collaborators answer as given.
    The serialiser is a parameter of the environment; the samples print the
    document as [str()] does. *)
Definition env_with (options : gmap string scalar)
    (push add restart : option exn) : env :=
  {| can_connect := true;
     config := options;
     b64decode_ascii := fun _ => Raise (Exn Base64Error "Incorrect padding");
     agent_cacert := Ok (SStr "CERT");
     safe_dump := Py.str;
     push_error := push;
     get_plan_error := None;
     add_layer_error := add;
     restart_error := restart;
     expose_error := None;
     opened_ports := ["5000/tcp"] |}.

Definition env_ok : env := env_with options_valid None None None.

Definition env_invalid : env := env_with options_invalid None None None.

(** The write is refused with an error of the Pebble client. *)
Definition env_push_denied : env :=
  env_with options_valid (Some (Exn OtherError "permission denied")) None None.

(** The write fails with a [ConnectionError]. *)
Definition env_push_refused : env :=
  env_with options_valid (Some (Exn ConnectionError "Connection refused")) None None.

(** The supervisor takes the layer and rejects the restart. *)
Definition env_restart_rejected : env :=
  env_with options_valid None None (Some (Exn OtherError "cannot start service")).

(** The document of [options_valid]. *)
Definition doc_valid : pyval :=
  rendered (exporter_config_of env_ok (SStr "CERT")).

(** The document of [options_invalid]. *)
Definition doc_invalid : pyval :=
  rendered (exporter_config_of env_invalid (SStr "CERT")).


(** What the scrape-target and port steps emit under [options_valid]. *)
Definition scrape_events : list event :=
  [EvScrapeTarget (SInt 5000) "/metrics" "900s" "30s"].

Definition port_events : list event :=
  [ EvLog DEBUG "Setting port 5000 as closed.";
    EvClosePort "5000" "tcp";
    EvLog DEBUG "Setting port 5000 as opened.";
    EvOpenPort (SInt 5000) ].

(** The charm after [__init__], in front of a container without services. *)
Definition fresh : charm :=
  {| unit_status := UnknownStatus; current_config_hash := None; plan := ∅ |}.

(** The charm once converged: active, with the fingerprint of [doc_valid]
    and the desired services. *)
Definition converged : charm :=
  {| unit_status := ActiveStatus "";
     current_config_hash := Some (fingerprint doc_valid);
     plan := _build_layer |}.

(** The same with a foreign command installed for the service. *)
Definition drifted : charm :=
  {| unit_status := ActiveStatus "";
     current_config_hash := Some (fingerprint doc_valid);
     plan := {[ name := {[ "command" := "/bin/true" ]} ]} |}.

(** [options_valid] without the [scrape-interval] option. *)
Definition options_no_interval : gmap string scalar :=
  delete "scrape-interval" options_valid.

Definition env_no_interval : env := env_with options_no_interval None None None.

(** No certificate in the options and none in the agent configuration. *)
Definition env_no_cert : env :=
  {| can_connect := true;
     config := options_valid;
     b64decode_ascii := fun _ => Raise (Exn Base64Error "Incorrect padding");
     agent_cacert := Ok SNone;
     safe_dump := Py.str;
     push_error := None;
     get_plan_error := None;
     add_layer_error := None;
     restart_error := None;
     expose_error := None;
     opened_ports := [] |}.


(** The charm after [__init__], in front of a container that already runs
    the desired services. *)
Definition installed : charm :=
  {| unit_status := UnknownStatus; current_config_hash := None;
     plan := _build_layer |}.

(** The same in front of a container that runs another service besides. *)
Definition crowded : charm :=
  {| unit_status := UnknownStatus; current_config_hash := None;
     plan := <["sidecar" := {[ "command" := "/bin/sidecar" ]}]> _build_layer |}.


End Samples.

(** ** Vocabulary of the further properties *)

Module Further.

Import Exporter Charm.

(** A text with at least one character. *)
Definition nonempty_text (a : scalar) : Prop := ∃ c s, a = SStr (String c s).



(** An integer or a boolean: a value without the [split] method that is not
    [None]. *)
Definition is_number (a : scalar) : Prop :=
  match a with
  | SInt _ | SBool _ => True
  | SNone | SStr _ => False
  end.



(** The value of every required option in a document of the shape [render]
    gives. *)
Definition leaf_of (c : ExporterConfig) (endpoint macs matching : pyval)
    (option : string) : pyval :=
  if String.eqb option "customer.name" then VAtom (customer c)
  else if String.eqb option "customer.cloud_name" then VAtom (cloud c)
  else if String.eqb option "juju.controller_endpoint" then endpoint
  else if String.eqb option "juju.controller_cacert" then VAtom (ca_cert c)
  else if String.eqb option "juju.username" then VAtom (user c)
  else if String.eqb option "juju.password" then VAtom (password c)
  else if String.eqb option "exporter.port" then VAtom (port c)
  else if String.eqb option "exporter.collect_interval" then VAtom (interval c)
  else if String.eqb option "detection.virt_macs" then macs
  else matching.

(** The ports a computation asked to close, with their protocols, in
    order. *)
Fixpoint closed_ports (evs : list event) : list (string * string) :=
  match evs with
  | [] => []
  | EvClosePort port protocol :: rest => (port, protocol) :: closed_ports rest
  | _ :: rest => closed_ports rest
  end.

(** The ports it asked to open. *)
Fixpoint opened (evs : list event) : list scalar :=
  match evs with
  | [] => []
  | EvOpenPort port :: rest => port :: opened rest
  | _ :: rest => opened rest
  end.

(** The scrape targets it registered: port, interval and timeout. *)
Fixpoint scrape_targets (evs : list event) : list (scalar * string * string) :=
  match evs with
  | [] => []
  | EvScrapeTarget port _ interval timeout :: rest =>
      (port, interval, timeout) :: scrape_targets rest
  | _ :: rest => scrape_targets rest
  end.

(** The port and the protocol of a port specification such as ["80/tcp"]:
    what [old_port, protocol = port_spec.split("/")] unpacks. *)
Definition port_spec_parts (port_spec : string) : option (string * string) :=
  match PyStr.split "/" port_spec with
  | [old_port; protocol] => Some (old_port, protocol)
  | _ => None
  end.

(** The document [render] gives, its three derived values left open. *)
Definition shaped (c : ExporterConfig) (endpoint macs matching : pyval) : pyval :=
  VDict
    [ ("debug", VAtom (debug c));
      ("customer", VDict
         [ ("name", VAtom (customer c));
           ("cloud_name", VAtom (cloud c)) ]);
      ("juju", VDict
         [ ("controller_endpoint", endpoint);
           ("controller_cacert", VAtom (ca_cert c));
           ("username", VAtom (user c));
           ("password", VAtom (password c)) ]);
      ("exporter", VDict
         [ ("collect_interval", VAtom (interval c));
           ("port", VAtom (port c)) ]);
      ("detection", VDict
         [ ("virt_macs", macs);
           ("match_interfaces", matching) ]) ].

End Further.

(** * Properties *)

(** ** The digest on the test vectors of the standard *)

Lemma sha256_empty :
  Sha256.hexdigest ""
  = "e3b0c44298fc1c149afbf4c8996fb92427ae41e4649b934ca495991b7852b855".
Proof. vm_compute. reflexivity. Qed.

Lemma sha256_abc :
  Sha256.hexdigest "abc"
  = "ba7816bf8f01cfea414140de5dae2223b00361a396177a9cb410ff61f20015ad".
Proof. vm_compute. reflexivity. Qed.

(** Two blocks. *)
Lemma sha256_two_blocks :
  Sha256.hexdigest "abcdbcdecdefdefgefghfghighijhijkijkljklmklmnlmnomnopnopq"
  = "248d6a61d20638b8e5c026930c3e6039a33ce45964ff2167f6ecedd419db06c1".
Proof. vm_compute. reflexivity. Qed.

(** ** Text helpers *)

Section split_join.

Variable sep : ascii.

Lemma split_not_nil (s : string) : PyStr.split sep s ≠ [].
Proof.
  destruct s as [|c s]; simpl; [discriminate|].
  destruct (Ascii.eqb c sep); [discriminate|].
  destruct (PyStr.split sep s); discriminate.
Qed.

(** Joining the pieces with the separator gives the text back: nothing is
    trimmed and nothing is dropped. *)
Lemma join_split (s : string) :
  PyStr.join (String sep EmptyString) (PyStr.split sep s) = s.
Proof.
  induction s as [|c s IH]; [reflexivity|].
  simpl. destruct (Ascii.eqb c sep) eqn:E.
  - apply Ascii.eqb_eq in E. subst c.
    pose proof (split_not_nil s) as Hne.
    destruct (PyStr.split sep s) as [|p rest]; [congruence|].
    change (PyStr.join (String sep "") ("" :: p :: rest))
      with (String sep (PyStr.join (String sep "") (p :: rest))).
    now rewrite IH.
  - pose proof (split_not_nil s) as Hne.
    destruct (PyStr.split sep s) as [|p rest]; [congruence|].
    destruct rest as [|q rest].
    + simpl in *. now rewrite IH.
    + change (PyStr.join (String sep "") (String c p :: q :: rest))
        with (String c (PyStr.join (String sep "") (p :: q :: rest))).
      now rewrite IH.
Qed.

(** Only the empty text splits into one empty piece. *)
Lemma split_one_empty (s : string) :
  PyStr.split sep s = [EmptyString] → s = EmptyString.
Proof.
  intros H. rewrite <- (join_split s), H. reflexivity.
Qed.

End split_join.

(** ** Numbers written as text *)

Section number_texts.

Import PyStr Observe.





















End number_texts.

(** ** Rendering *)

Section rendering.

Import Exporter Observe Samples.

Lemma pieces_not_one_empty (s : string) :
  s ≠ EmptyString → pieces s ≠ VList [VAtom (SStr EmptyString)].
Proof.
  intros Hs H. unfold pieces in H. injection H as H.
  destruct (PyStr.split "," s) as [|p [|q rest]] eqn:E; try discriminate.
  injection H as ->. now apply split_one_empty in E.
Qed.

(** C2, as stated, fails: the elements keep their surrounding whitespace,
    so the rendered lists differ from the trimmed ones of the
    specification, and the endpoints of an empty controller text are the
    empty text, not the empty list. *)
Lemma render_comma_lists_counterexample :
  (∃ doc,
      render cfg_spaced = Ok doc
      ∧ option_value doc "juju.controller_endpoint"
        = Ok (VList [VAtom (SStr "10.0.0.1:17070"); VAtom (SStr " 10.0.0.2:17070")])
      ∧ option_value doc "juju.controller_endpoint"
        ≠ Ok (VList ((fun p => VAtom (SStr p))
                       <$> Spec.comma_list (Some "10.0.0.1:17070, 10.0.0.2:17070")))
      ∧ option_value doc "detection.virt_macs"
        ≠ Ok (VList ((fun p => VAtom (SStr p))
                       <$> Spec.comma_list (Some "52:54:00 ,fa:16:3e"))))
  ∧ (∃ doc,
      render cfg_no_lists = Ok doc
      ∧ option_value doc "juju.controller_endpoint" = Ok (VAtom (SStr ""))
      ∧ option_value doc "juju.controller_endpoint"
        ≠ Ok (VList ((fun p => VAtom (SStr p)) <$> Spec.comma_list (Some "")))).
Proof.
  split; eexists; (split; [reflexivity|]); vm_compute; repeat split; congruence.
Qed.

(** C2, amended: [render] splits the controller text and the MAC prefix
    text on [","] and keeps every piece as it is, so that joining the
    pieces with [","] gives the text back; an empty or absent prefix text
    gives the empty list, an empty or absent controller text gives the
    empty text; neither is ever the one-element list of the empty text. *)
Theorem render_comma_lists (c : ExporterConfig) (ctrl pref : option string) :
  controller c = of_text ctrl →
  prefixes c = of_text pref →
  ∃ doc endpoints macs,
    render c = Ok doc
    ∧ option_value doc "juju.controller_endpoint" = Ok endpoints
    ∧ option_value doc "detection.virt_macs" = Ok macs
    ∧ endpoints = match ctrl with
                  | Some (String a s) => pieces (String a s)
                  | _ => VAtom (SStr "")
                  end
    ∧ macs = match pref with
             | Some (String a s) => pieces (String a s)
             | _ => VList []
             end
    ∧ endpoints ≠ VList [VAtom (SStr "")]
    ∧ macs ≠ VList [VAtom (SStr "")]
    ∧ (∀ s, PyStr.join "," (PyStr.split "," s) = s).
Proof.
  intros Hc Hp.
  assert (Hj : ∀ s, PyStr.join "," (PyStr.split "," s) = s)
    by (intros s; apply (join_split ","%char)).
  unfold render, controller_endpoint. rewrite Hc, Hp.
  destruct ctrl as [[|a s]|], pref as [[|b t]|]; simpl of_text; cbn iota;
    unfold Py.truthy, Py.split_commas, bind_result; cbn [String.eqb negb];
    do 3 eexists; (split; [reflexivity|]);
    (split; [reflexivity|]); (split; [reflexivity|]);
    (split; [reflexivity|]); (split; [reflexivity|]);
    repeat split; try discriminate; try apply Hj;
    apply pieces_not_one_empty; discriminate.
Qed.

(** The amended claim at a controller text with spaces and an absent
    prefix text. *)
Lemma render_comma_lists_witness :
  ∃ doc endpoints macs,
    render {| debug := SNone; customer := SNone; cloud := SNone;
              controller := SStr "a, b"; ca_cert := SNone; user := SNone;
              password := SNone; interval := SNone; port := SNone;
              prefixes := SNone; match_interfaces := SNone |} = Ok doc
    ∧ option_value doc "juju.controller_endpoint" = Ok endpoints
    ∧ option_value doc "detection.virt_macs" = Ok macs
    ∧ endpoints = pieces "a, b"
    ∧ macs = VList []
    ∧ endpoints ≠ VList [VAtom (SStr "")]
    ∧ macs ≠ VList [VAtom (SStr "")]
    ∧ (∀ s, PyStr.join "," (PyStr.split "," s) = s).
Proof.
  apply (render_comma_lists _ (Some "a, b") None); reflexivity.
Defined.

End rendering.

(** ** Validation *)

Section validation.

Import Exporter Observe Samples.

(** What the required-option loop returns: the options whose value is
    falsy, in the order of the list. *)
Lemma missing_among_filter (options : list string) (config : pyval) (missing : list string) :
  missing_among options config = Ok missing →
  missing = List.filter
              (fun o => match option_value config o with
                        | Ok v => negb (Py.truthy v)
                        | Raise _ => false
                        end) options.
Proof.
  revert missing. induction options as [|o rest IH]; intros missing H.
  - simpl in H. now injection H as <-.
  - simpl in H. unfold bind_result in H.
    destruct (option_value config o) as [v|e] eqn:Ev; [|discriminate].
    destruct (missing_among rest config) as [l|e] eqn:El; [|discriminate].
    injection H as <-. simpl. rewrite Ev, (IH l eq_refl).
    now destruct (negb (Py.truthy v)).
Qed.

Lemma missing_among_values (options : list string) (config : pyval) (missing : list string) :
  missing_among options config = Ok missing →
  ∀ o, In o options → ∃ v, option_value config o = Ok v.
Proof.
  revert missing. induction options as [|o' rest IH]; intros missing H o Ho; [easy|].
  simpl in H. unfold bind_result in H.
  destruct (option_value config o') as [v|e] eqn:Ev; [|discriminate].
  destruct (missing_among rest config) as [l|e] eqn:El; [|discriminate].
  destruct Ho as [<-|Ho]; [eauto|]. eapply IH; eauto.
Qed.

Lemma missing_among_In (options : list string) (config : pyval) (missing : list string) :
  missing_among options config = Ok missing →
  ∀ o, In o missing ↔
       In o options ∧ ∃ v, option_value config o = Ok v ∧ Py.truthy v = false.
Proof.
  intros H o. rewrite (missing_among_filter _ _ _ H), filter_In. split.
  - intros [Ho Hv]. split; [exact Ho|].
    destruct (option_value config o) as [v|e]; [|discriminate].
    exists v. split; [reflexivity|]. now apply negb_true_iff.
  - intros [Ho (v & Ev & Hv)]. split; [exact Ho|]. now rewrite Ev, Hv.
Qed.


(** The shape of the outcome of [validate_config] once its three checks
    have returned. *)
Lemma validate_config_anatomy (config : pyval) (missing : list string) (perr ierr : string) :
  _validate_required_options config = Ok missing →
  check_port config = Ok perr →
  check_interval config = Ok ierr →
  validate_config config =
    let errors := match missing with
                  | [] => ""
                  | _ => msg_missing missing
                  end ++ perr ++ ierr in
    if String.eqb errors "" then Ok tt else Raise (Exn ExporterConfigError errors).
Proof.
  intros Hm Hp Hi. unfold validate_config, _validate_option_values, bind_result.
  rewrite Hm, Hp, Hi. cbn zeta.
  change ("" ++ perr ++ ierr) with (perr ++ ierr).
  now destruct (String.eqb _ "").
Qed.

Lemma append_empty (a b : string) : a ++ b = "" → a = "" ∧ b = "".
Proof. intros H. destruct a; [split; [reflexivity|exact H]|discriminate H]. Qed.

Lemma msg_missing_not_empty (l : list string) : msg_missing l ≠ "".
Proof. discriminate. Qed.

Lemma msg_port_invalid_not_empty (n : Z) : msg_port_invalid n ≠ "".
Proof. discriminate. Qed.

(** [int()] never raises a [KeyError], and fails on text with a
    [ValueError] only. *)
Lemma int_raises (raw : pyval) (e : exn) :
  Py.int raw = Raise e → exn_cls e = ValueError ∨ exn_cls e = TypeError.
Proof.
  destruct raw as [[|s|n|b]|l|d]; simpl; try discriminate;
    try (intros [= <-]; now right).
  destruct (PyStr.to_Z s); [discriminate|]. intros [= <-]. now left.
Qed.

(** What the port block adds to the errors, by the outcome of [int()]. *)
Lemma check_port_cases (config section raw : pyval) :
  Py.subscript config "exporter" = Ok section →
  Py.subscript section "port" = Ok raw →
  check_port config =
    match Py.int raw with
    | Ok n => Ok (if (0 <? n) && (n <? 65535) then "" else msg_port_invalid n)
    | Raise e =>
        match exn_cls e with
        | ValueError => Ok msg_port_not_a_number
        | _ => Raise e
        end
    end.
Proof.
  intros Hs Hr. unfold check_port, guarded, bind_result. rewrite Hs, Hr.
  destruct (Py.int raw) as [n|e] eqn:E.
  - now destruct ((0 <? n) && (n <? 65535)).
  - destruct (int_raises _ _ E) as [-> | ->]; reflexivity.
Qed.

(** *** Counting lines *)

Lemma append_cons (c : ascii) (a b : string) : String c a ++ b = String c (a ++ b).
Proof. reflexivity. Qed.

Lemma line_count_app (a b : string) :
  line_count (a ++ b) = (line_count a + line_count b)%nat.
Proof.
  induction a as [|c a IH]; [reflexivity|].
  rewrite append_cons. simpl. rewrite IH. now destruct (Ascii.eqb c _).
Qed.

Lemma line_count_uint (d : Decimal.uint) : line_count (NilEmpty.string_of_uint d) = O.
Proof. induction d; simpl; auto. Qed.

Lemma line_count_of_Z (n : Z) : line_count (PyStr.of_Z n) = O.
Proof.
  unfold PyStr.of_Z, NilZero.string_of_int.
  destruct (Z.to_int n) as [d|d]; unfold NilZero.string_of_uint;
    destruct d; simpl; auto using line_count_uint.
Qed.

Lemma line_count_join (l : list string) :
  Forall (fun o => line_count o = O) l → line_count (PyStr.join ", " l) = O.
Proof.
  induction 1 as [|o rest Ho _ IH]; [reflexivity|].
  destruct rest as [|o' rest]; [exact Ho|].
  change (PyStr.join ", " (o :: o' :: rest))
    with (o ++ ", " ++ PyStr.join ", " (o' :: rest)).
  now rewrite !line_count_app, Ho, IH.
Qed.

Lemma required_options_one_line : Forall (fun o => line_count o = O) _REQUIRED_CONFIG.
Proof. repeat constructor. Qed.

Lemma line_count_msg_missing (config : pyval) (missing : list string) :
  _validate_required_options config = Ok missing →
  line_count (msg_missing missing) = 1%nat.
Proof.
  intros H. unfold msg_missing.
  rewrite !line_count_app, line_count_join; [reflexivity|].
  apply List.Forall_forall. intros o Ho.
  apply (missing_among_In _ _ _ H) in Ho as [Ho _].
  revert o Ho. apply List.Forall_forall, required_options_one_line.
Qed.

Lemma line_count_msg_port_invalid (n : Z) : line_count (msg_port_invalid n) = 1%nat.
Proof. unfold msg_port_invalid. now rewrite !line_count_app, line_count_of_Z. Qed.

(** A value check adds nothing or one line. *)
Lemma check_port_line (config : pyval) (perr : string) :
  check_port config = Ok perr → line_count perr = present perr.
Proof.
  unfold check_port, guarded, bind_result.
  destruct (Py.subscript config "exporter") as [section|e].
  2:{ destruct (exn_cls e); try discriminate; now intros [= <-]. }
  destruct (Py.subscript section "port") as [raw|e].
  2:{ destruct (exn_cls e); try discriminate; now intros [= <-]. }
  destruct (Py.int raw) as [n|e].
  2:{ destruct (exn_cls e); try discriminate; now intros [= <-]. }
  destruct (negb _); intros [= <-]; [|reflexivity].
  now rewrite line_count_msg_port_invalid.
Qed.

Lemma check_interval_line (config : pyval) (ierr : string) :
  check_interval config = Ok ierr → line_count ierr = present ierr.
Proof.
  unfold check_interval, guarded, bind_result.
  destruct (Py.subscript config "exporter") as [section|e].
  2:{ destruct (exn_cls e); try discriminate; now intros [= <-]. }
  destruct (Py.subscript section "collect_interval") as [raw|e].
  2:{ destruct (exn_cls e); try discriminate; now intros [= <-]. }
  destruct (Py.int raw) as [n|e].
  2:{ destruct (exn_cls e); try discriminate; now intros [= <-]. }
  destruct (_ <? _); now intros [= <-].
Qed.

End validation.


(** ** Validation: the claims *)

Section validation_claims.

Import Exporter Observe Samples.

(** C8, as stated, fails on the lines: two required options are missing,
    two violations by the count of the specification, and the error text
    has one line naming both. *)
Lemma validate_config_lines_counterexample :
  let doc := rendered cfg_two_missing in
  render cfg_two_missing = Ok doc
  ∧ _validate_required_options doc = Ok ["customer.name"; "customer.cloud_name"]
  ∧ check_port doc = Ok ""
  ∧ check_interval doc = Ok ""
  ∧ validate_config doc
    = Raise (Exn ExporterConfigError
               ("Following config options are missing: customer.name, customer.cloud_name"
                  ++ Py.newline))
  ∧ line_count ("Following config options are missing: customer.name, customer.cloud_name"
                  ++ Py.newline) = 1%nat
  ∧ length ["customer.name"; "customer.cloud_name"] ≠ 1%nat.
Proof. vm_compute. repeat split; congruence. Qed.

(** When [validate_config] returns and what it raises otherwise. *)
Lemma validate_config_outcome
    (config : pyval) (missing : list string) (perr ierr : string) :
  _validate_required_options config = Ok missing →
  check_port config = Ok perr →
  check_interval config = Ok ierr →
  (validate_config config = Ok tt ↔ missing = [] ∧ perr = "" ∧ ierr = "")
  ∧ (validate_config config ≠ Ok tt →
     validate_config config
     = Raise (Exn ExporterConfigError
                (match missing with [] => "" | _ => msg_missing missing end
                   ++ perr ++ ierr))).
Proof.
  intros Hm Hp Hi.
  pose proof (validate_config_anatomy _ _ _ _ Hm Hp Hi) as Hv.
  cbn zeta in Hv.
  set (text := match missing with [] => "" | _ => msg_missing missing end
                 ++ perr ++ ierr) in *.
  assert (Hempty : String.eqb text "" = true ↔ missing = [] ∧ perr = "" ∧ ierr = "").
  { rewrite String.eqb_eq. subst text. split.
    - intros H. apply append_empty in H as [H1 H2].
      apply append_empty in H2 as [H2 H3].
      destruct missing; [easy|]. now apply msg_missing_not_empty in H1.
    - now intros (-> & -> & ->). }
  split; [split|].
  - intros H. apply Hempty. rewrite Hv in H.
    destruct (String.eqb text ""); [reflexivity|discriminate].
  - intros H. apply Hempty in H. now rewrite Hv, H.
  - intros H. rewrite Hv in *. now destruct (String.eqb text "").
Qed.

(** C8, amended: once the required-option check and the two value checks
    have returned, [validate_config] has run them all; it returns exactly
    when none of them reported anything and otherwise raises
    [ExporterConfigError] with, in this order, one line naming every missing
    option, the line of the port check and the line of the interval check,
    each check adding at most one line. *)
Theorem validate_config_collects
    (config : pyval) (missing : list string) (perr ierr : string) :
  _validate_required_options config = Ok missing →
  check_port config = Ok perr →
  check_interval config = Ok ierr →
  let mline := match missing with [] => "" | _ => msg_missing missing end in
  let text := mline ++ perr ++ ierr in
  (validate_config config = Ok tt ↔ missing = [] ∧ perr = "" ∧ ierr = "")
  ∧ (validate_config config ≠ Ok tt →
     validate_config config = Raise (Exn ExporterConfigError text))
  ∧ line_count text
    = ((match missing with [] => O | _ => 1%nat end) + present perr + present ierr)%nat.
Proof.
  intros Hm Hp Hi mline text.
  destruct (validate_config_outcome _ _ _ _ Hm Hp Hi) as [Hiff Hfail].
  split; [exact Hiff|]. split; [exact Hfail|].
  subst text. rewrite !line_count_app.
  rewrite (check_port_line _ _ Hp), (check_interval_line _ _ Hi).
  subst mline. destruct missing as [|o rest]; [reflexivity|].
  now rewrite (line_count_msg_missing _ _ Hm).
Qed.

(** The amended claim at a document without customer name and with the port
    text ["99999"]: both the missing-option line and the port line. *)
Lemma validate_config_collects_witness :
  let doc := rendered cfg_no_customer_big_port in
  let text := msg_missing ["customer.name"] ++ msg_port_invalid 99999 ++ "" in
  (validate_config doc = Ok tt ↔ ["customer.name"] = [] ∧ msg_port_invalid 99999 = "" ∧ "" = "")
  ∧ (validate_config doc ≠ Ok tt →
     validate_config doc = Raise (Exn ExporterConfigError text))
  ∧ line_count text = (1 + present (msg_port_invalid 99999) + present "")%nat.
Proof.
  apply (validate_config_collects (rendered cfg_no_customer_big_port)
           ["customer.name"] (msg_port_invalid 99999) "");
    vm_compute; reflexivity.
Defined.

Lemma append_empty_r (s : string) : s ++ "" = s.
Proof. induction s as [|c s IH]; [reflexivity|]. now rewrite append_cons, IH. Qed.


(** When the value check of a section's option raises, so does
    [validate_config], with the same exception. *)
Lemma validate_config_port_raises (config : pyval) (missing : list string) (e : exn) :
  _validate_required_options config = Ok missing →
  check_port config = Raise e →
  validate_config config = Raise e.
Proof.
  intros Hm Hp. unfold validate_config, _validate_option_values, bind_result.
  now rewrite Hm, Hp.
Qed.




(** The ports of the specification's examples, as integers and as texts,
    and texts that are no number. *)
Lemma port_examples :
  let with_port p :=
    rendered {| debug := SBool false; customer := SStr "acme";
                cloud := SStr "lab"; controller := SStr "10.0.0.1:17070";
                ca_cert := SStr "CERT"; user := SStr "admin";
                password := SStr "secret"; interval := SInt 15;
                port := p; prefixes := SStr "52:54:00";
                match_interfaces := SStr "^(en|eth)" |} in
  let no_number :=
    Raise (Exn ExporterConfigError
             ("Configuration option 'port' must be a number." ++ Py.newline)) in
  validate_config (with_port (SInt 1)) = Ok tt
  ∧ validate_config (with_port (SInt 8080)) = Ok tt
  ∧ validate_config (with_port (SInt 65534)) = Ok tt
  ∧ validate_config (with_port (SInt 65535))
    = Raise (Exn ExporterConfigError ("Port 65535 is not valid port number." ++ Py.newline))
  ∧ validate_config (with_port (SInt 0))
    = Raise (Exn ExporterConfigError
               ("Following config options are missing: exporter.port" ++ Py.newline
                  ++ "Port 0 is not valid port number." ++ Py.newline))
  ∧ validate_config (with_port (SStr "abc")) = no_number
  ∧ validate_config (with_port (SStr "1")) = Ok tt
  ∧ validate_config (with_port (SStr "8080")) = Ok tt
  ∧ validate_config (with_port (SStr "65534")) = Ok tt
  ∧ validate_config (with_port (SStr (" 8080" ++ Py.newline))) = Ok tt
  ∧ validate_config (with_port (SStr "+8_080")) = Ok tt
  ∧ validate_config (with_port (SStr "65535"))
    = Raise (Exn ExporterConfigError ("Port 65535 is not valid port number." ++ Py.newline))
  ∧ validate_config (with_port (SStr "0"))
    = Raise (Exn ExporterConfigError ("Port 0 is not valid port number." ++ Py.newline))
  ∧ validate_config (with_port (SStr "-1"))
    = Raise (Exn ExporterConfigError ("Port -1 is not valid port number." ++ Py.newline))
  ∧ validate_config (with_port (SStr (String.append "8080" (String (ascii_of_nat 31) EmptyString))))
    = no_number
  ∧ validate_config (with_port (SStr (String (ascii_of_nat 28) "8080"))) = no_number
  ∧ validate_config (with_port (SStr "80 80")) = no_number
  ∧ validate_config (with_port (SStr "8080.0")) = no_number
  ∧ validate_config (with_port (SStr "_8080")) = no_number
  ∧ validate_config (with_port (SStr "80__80")) = no_number
  ∧ validate_config (with_port (SStr "- 80")) = no_number.
Proof. vm_compute. repeat split. Qed.



End validation_claims.

(** ** The reconciliation pass, step by step *)

(** Run the monadic plumbing of a computation. *)
Ltac run :=
  cbv [mbind Charm.M_bind mret Charm.M_ret Charm.log Charm.emit Charm.set_status
       Charm.get_status Charm.get_hash Charm.set_hash Charm.call Charm.lift
       Charm.raise Charm.try_except Observe.with_status Observe.with_hash
       Observe.with_layer];
  cbv beta iota zeta.

Ltac tidy := rewrite ?app_nil_r; cbn [app Observe.pass_head].

Section pass.

Import Exporter Charm Observe Samples.

(** A pass up to the comparison of the fingerprints, and how it goes on. *)
Lemma configure_unfold (e : env) (doc : pyval) (st : charm) :
  can_connect e = true →
  returns (generate_exporter_config e) doc [] →
  _configure e st =
    let h := fingerprint doc in
    let st1 := with_status st maintenance in
    if bool_decide (Some h ≠ current_config_hash st) then
      match apply_changed e doc h st1 with
      | (Ok (Some restart), st2, evs) =>
          let '(r, st3, evs') := converge e restart st2 in
          (r, st3, (pass_head st h ++ evs ++ evs')%list)
      | (Ok None, st2, evs) => (Ok tt, st2, (pass_head st h ++ evs)%list)
      | (Raise exc, st2, evs) => (Raise exc, st2, (pass_head st h ++ evs)%list)
      end
    else
      let '(r, st3, evs') := converge e false st1 in
      (r, st3, (pass_head st h ++ evs')%list).
Proof.
  intros Hc Hgen. unfold _configure. rewrite Hc. cbn [negb]. run.
  rewrite Hgen. cbv beta iota zeta. unfold maintenance. cbn [current_config_hash].
  destruct (bool_decide (Some (fingerprint doc) ≠ current_config_hash st)).
  - destruct (apply_changed e doc (fingerprint doc) _) as [[[[r|]|exc] st2] evs].
    + destruct (converge e r st2) as [[r' st3] evs']. now tidy.
    + now tidy.
    + now tidy.
  - destruct (converge e false _) as [[r' st3] evs']. now tidy.
Qed.

(** *** The apply step *)

(** Validation raises [ExporterConfigError]: logged with the option names
    translated, status [Blocked], nothing else. *)
Lemma apply_changed_invalid (e : env) (doc : pyval) (h : string) (st : charm) (exc : exn) :
  validate_config doc = Raise exc →
  exn_cls exc = ExporterConfigError →
  apply_changed e doc h st =
    (Ok None, with_status st blocked,
     (apply_head ++ [EvLog ERROR (translate (exn_msg exc)); EvStatus blocked])%list).
Proof.
  intros Hv Hc. unfold apply_changed, apply_config. run. rewrite Hv.
  cbv beta iota zeta. rewrite Hc. now tidy.
Qed.

(** The document is valid and the write succeeds. *)
Lemma apply_changed_pushed (e : env) (doc : pyval) (h : string) (st : charm) :
  validate_config doc = Ok tt →
  push_error e = None →
  apply_changed e doc h st =
    (Ok (Some true), with_hash st h,
     (apply_head ++ pushed_events e doc
        ++ [EvLog INFO ("push: " ++ OCI_CONFIG_PATH)])%list).
Proof.
  intros Hv Hp. unfold apply_changed, apply_config. run. rewrite Hv, Hp.
  cbv beta iota zeta. now tidy.
Qed.

(** The document is valid and the write raises. *)
Lemma apply_changed_push_raises (e : env) (doc : pyval) (h : string) (st : charm) (exc : exn) :
  validate_config doc = Ok tt →
  push_error e = Some exc →
  apply_changed e doc h st =
    match exn_cls exc with
    | ExporterConfigError =>
        (Ok None, with_status st blocked,
         (apply_head ++ pushed_events e doc
            ++ [EvLog ERROR (translate (exn_msg exc)); EvStatus blocked])%list)
    | ConnectionError =>
        (Ok (Some true), st,
         (apply_head ++ pushed_events e doc
            ++ [push_refused])%list)
    | _ => (Raise exc, st, (apply_head ++ pushed_events e doc)%list)
    end.
Proof.
  intros Hv Hp. unfold apply_changed, apply_config. run. rewrite Hv, Hp.
  cbv beta iota zeta. destruct (exn_cls exc); now tidy.
Qed.

(** *** The restart step *)

Lemma restart_pje_cases (e : env) (st : charm) :
  restart_pje e st =
    match add_layer_error e, restart_error e with
    | Some exc, _ =>
        (Ok tt, st, [EvAddLayer name _build_layer; restart_failed exc])
    | None, Some exc =>
        (Ok tt, with_layer st _build_layer,
         [ EvAddLayer name _build_layer;
           EvLog INFO ("Added updated layer '" ++ name ++ "' to Pebble plan");
           EvRestart name;
           restart_failed exc ])
    | None, None =>
        (Ok tt, with_status (with_layer st _build_layer) (ActiveStatus ""),
         [ EvAddLayer name _build_layer;
           EvLog INFO ("Added updated layer '" ++ name ++ "' to Pebble plan");
           EvRestart name;
           EvLog INFO ("Restarted " ++ name ++ " service");
           EvStatus (ActiveStatus "") ])
    end.
Proof.
  unfold restart_pje, add_layer. run.
  destruct (add_layer_error e) as [exc|]; [reflexivity|].
  destruct (restart_error e) as [exc|]; reflexivity.
Qed.

(** *** From the plan comparison on *)

Lemma converge_cases (e : env) (restart : bool) (st : charm) (evs_s evs_p : list event) :
  get_plan_error e = None →
  returns (reconfigure_scrape_target e) tt evs_s →
  returns (reconfigure_open_ports e) tt evs_p →
  converge e restart st =
    let decided := if bool_decide (plan st ≠ _build_layer) then true else restart in
    let mid := (evs_s ++ evs_p ++ [restart_line decided])%list in
    if decided then
      let '(r, st', evs) := restart_pje e st in (r, st', (mid ++ evs)%list)
    else if is_active (unit_status st) then (Ok tt, st, mid)
    else (Ok tt, with_status st (ActiveStatus ""), (mid ++ [EvStatus (ActiveStatus "")])%list).
Proof.
  intros Hg Hs Hp. unfold converge, get_plan_services. run. rewrite Hg.
  rewrite Hs. cbv beta iota zeta. rewrite Hp. cbv beta iota zeta.
  destruct (if bool_decide (plan st ≠ _build_layer) then true else restart).
  - destruct (restart_pje e st) as [[r st'] evs]. cbn [app].
    now rewrite <- !app_assoc.
  - destruct (is_active (unit_status st)); cbn [negb]; cbn [app];
      rewrite ?app_nil_r, <- ?app_assoc; reflexivity.
Qed.

(** *** What the scrape-target and port steps can emit *)

Lemma scrape_target_frame (e : env) (st : charm) :
  ∃ r evs, reconfigure_scrape_target e st = (r, st, evs) ∧ side_events evs.
Proof.
  unfold reconfigure_scrape_target, config_item. run.
  destruct (config e !! "scrape-port"); run; [|eexists _, _; split; [reflexivity|constructor]].
  destruct (config e !! "scrape-interval"); run; [|eexists _, _; split; [reflexivity|constructor]].
  destruct (times_60 _); run; [|eexists _, _; split; [reflexivity|constructor]].
  destruct (config e !! "scrape-timeout"); run; [|eexists _, _; split; [reflexivity|constructor]].
  destruct (expose_error e) as [exc|]; run.
  - destruct (exn_cls exc); eexists _, _; (split; [reflexivity|]); repeat constructor.
  - eexists _, _; (split; [reflexivity|]); repeat constructor.
Qed.

Lemma close_ports_frame (specs : list string) (st : charm) :
  ∃ r evs, close_ports specs st = (r, st, evs) ∧ side_events evs.
Proof.
  induction specs as [|spec rest IH]; simpl.
  - eexists _, _; split; [reflexivity|constructor].
  - destruct (PyStr.split "/" spec) as [|a [|b [|c l]]]; run;
      try (eexists _, _; split; [reflexivity|constructor]).
    destruct IH as (r & evs & -> & Hside).
    destruct r; eexists _, _; (split; [reflexivity|]); repeat constructor; exact Hside.
Qed.

Lemma open_ports_frame (e : env) (st : charm) :
  ∃ r evs, reconfigure_open_ports e st = (r, st, evs) ∧ side_events evs.
Proof.
  unfold reconfigure_open_ports, config_item. run.
  destruct (config e !! "scrape-port"); run; [|eexists _, _; split; [reflexivity|constructor]].
  destruct (close_ports_frame (opened_ports e) st) as (r & evs & -> & Hside).
  destruct r; eexists _, _; (split; [reflexivity|]).
  - cbn [app]. apply Forall_app. split; [exact Hside|repeat constructor].
  - exact Hside.
Qed.

Lemma returns_scrape_side (e : env) (evs : list event) (st : charm) :
  returns (reconfigure_scrape_target e) tt evs → side_events evs.
Proof.
  intros H. destruct (scrape_target_frame e st) as (r & evs' & E & Hside).
  rewrite H in E. now injection E as _ <-.
Qed.

Lemma returns_ports_side (e : env) (evs : list event) (st : charm) :
  returns (reconfigure_open_ports e) tt evs → side_events evs.
Proof.
  intros H. destruct (open_ports_frame e st) as (r & evs' & E & Hside).
  rewrite H in E. now injection E as _ <-.
Qed.

(** Side events count for nothing. *)
Lemma side_events_silent (evs : list event) :
  side_events evs →
  applies evs = O ∧ installs evs = O ∧ restarts evs = O ∧ status_writes evs = [].
Proof.
  unfold applies, installs, restarts.
  induction 1 as [|ev rest Hev _ (IH1 & IH2 & IH3 & IH4)]; [easy|].
  destruct ev; try discriminate; simpl; auto.
Qed.


Lemma applies_app (a b : list event) : applies (a ++ b) = (applies a + applies b)%nat.
Proof. unfold applies. now rewrite List.filter_app, length_app. Qed.

Lemma installs_app (a b : list event) : installs (a ++ b) = (installs a + installs b)%nat.
Proof. unfold installs. now rewrite List.filter_app, length_app. Qed.

Lemma restarts_app (a b : list event) : restarts (a ++ b) = (restarts a + restarts b)%nat.
Proof. unfold restarts. now rewrite List.filter_app, length_app. Qed.

Lemma status_writes_app (a b : list event) :
  status_writes (a ++ b) = (status_writes a ++ status_writes b)%list.
Proof.
  induction a as [|ev a IH]; [reflexivity|].
  destruct ev; simpl; now rewrite ?IH.
Qed.

Lemma logged_app (lvl : level) (a b : list event) :
  logged lvl (a ++ b) = (logged lvl a ++ logged lvl b)%list.
Proof.
  induction a as [|ev a IH]; [reflexivity|].
  destruct ev as [l m| | | | | | |]; simpl; rewrite ?IH; try reflexivity.
  destruct lvl, l; simpl; now rewrite ?IH.
Qed.

End pass.

(** ** The reconciliation pass: the claims *)

Section pass_claims.

Import Exporter Charm Observe Samples.

(** C1, as stated, fails on the failure reason: the status written is
    [Blocked] with a fixed message, and the violation text, with its
    option names translated, goes to the log only. *)
Lemma invalid_configuration_reason_counterexample :
  let text := "Following config options are missing: customer" ++ Py.newline
              ++ "Port 99999 is not valid port number." ++ Py.newline in
  ∃ st evs,
    _configure env_invalid fresh = (Ok tt, st, evs)
    ∧ validate_config doc_invalid
      = Raise (Exn ExporterConfigError
                 ("Following config options are missing: customer.name" ++ Py.newline
                    ++ "Port 99999 is not valid port number." ++ Py.newline))
    ∧ unit_status st = BlockedStatus "Invalid configuration. Please see logs."
    ∧ unit_status st ≠ BlockedStatus text
    ∧ logged ERROR evs = [text].
Proof.
  eexists _, _. split; [vm_compute; reflexivity|].
  split; [vm_compute; reflexivity|]. cbn [unit_status].
  split; [reflexivity|]. split; [discriminate|]. vm_compute. reflexivity.
Qed.

(** C1, amended: a pass whose validation fails ends with the status
    [Blocked "Invalid configuration. Please see logs."]; the full violation
    text, every exporter option name of [OCI_CONFIG_MAP] replaced by its
    charm option, is logged as an error; the stored fingerprint and the plan
    are as before; nothing is written, installed or restarted. *)
Theorem invalid_configuration_blocks
    (e : env) (doc : pyval) (st : charm) (exc : exn) :
  can_connect e = true →
  returns (generate_exporter_config e) doc [] →
  Some (fingerprint doc) ≠ current_config_hash st →
  validate_config doc = Raise exc →
  exn_cls exc = ExporterConfigError →
  ∃ evs,
    _configure e st = (Ok tt, with_status st blocked, evs)
    ∧ logged ERROR evs = [translate (exn_msg exc)]
    ∧ status_writes evs = [maintenance; blocked]
    ∧ applies evs = O ∧ installs evs = O ∧ restarts evs = O
    ∧ current_config_hash (with_status st blocked) = current_config_hash st
    ∧ plan (with_status st blocked) = plan st.
Proof.
  intros Hc Hgen Hne Hv Hcls.
  rewrite (configure_unfold _ _ _ Hc Hgen). cbv zeta.
  rewrite bool_decide_eq_true_2 by exact Hne.
  rewrite (apply_changed_invalid _ _ _ _ _ Hv Hcls).
  eexists. split; [reflexivity|]. repeat split.
Qed.

(** The amended claim at the pass of the counterexample. *)
Lemma invalid_configuration_blocks_witness :
  ∃ evs,
    _configure env_invalid fresh = (Ok tt, with_status fresh blocked, evs)
    ∧ logged ERROR evs
      = [translate ("Following config options are missing: customer.name" ++ Py.newline
                      ++ "Port 99999 is not valid port number." ++ Py.newline)]
    ∧ status_writes evs = [maintenance; blocked]
    ∧ applies evs = O ∧ installs evs = O ∧ restarts evs = O
    ∧ current_config_hash (with_status fresh blocked) = current_config_hash fresh
    ∧ plan (with_status fresh blocked) = plan fresh.
Proof.
  apply (invalid_configuration_blocks env_invalid doc_invalid fresh
           (Exn ExporterConfigError
              ("Following config options are missing: customer.name" ++ Py.newline
                 ++ "Port 99999 is not valid port number." ++ Py.newline))).
  - reflexivity.
  - intros st. vm_compute. reflexivity.
  - discriminate.
  - vm_compute. reflexivity.
  - reflexivity.
Defined.

(** *** Helpers on the second half of the pass *)

Lemma restart_pje_summary (e : env) (st : charm) :
  ∃ st' evs,
    restart_pje e st = (Ok tt, st', evs)
    ∧ installs evs = 1%nat
    ∧ applies evs = O
    ∧ current_config_hash st' = current_config_hash st
    ∧ (add_layer_error e = None → restarts evs = 1%nat)
    ∧ (∀ s, In s (status_writes evs) → s = ActiveStatus "")
    ∧ (∀ exc, rejects e exc →
         unit_status st' = unit_status st
         ∧ status_writes evs = []
         ∧ logged ERROR evs = [restart_failed_text exc]
         ∧ In (restart_failed exc) evs).
Proof.
  rewrite restart_pje_cases. unfold rejects.
  destruct (add_layer_error e) as [x|]; [|destruct (restart_error e) as [x|]];
    eexists _, _; (split; [reflexivity|]);
    (split; [reflexivity|]); (split; [reflexivity|]); (split; [reflexivity|]).
  - split; [discriminate|]. split; [intros s []|].
    intros exc [[= ->]|[[=] _]]. repeat split. simpl. tauto.
  - split; [reflexivity|]. split; [intros s []|].
    intros exc [[=]|[_ [= ->]]]. repeat split. simpl. tauto.
  - split; [reflexivity|]. split; [intros s [<-|[]]; reflexivity|].
    intros exc [[=]|[_ [=]]].
Qed.

Lemma converge_summary (e : env) (restart : bool) (st : charm) (evs_s evs_p : list event) :
  get_plan_error e = None →
  returns (reconfigure_scrape_target e) tt evs_s →
  returns (reconfigure_open_ports e) tt evs_p →
  let decided := restart || bool_decide (plan st ≠ _build_layer) in
  ∃ st' evs,
    converge e restart st = (Ok tt, st', evs)
    ∧ In (restart_line decided) evs
    ∧ installs evs = (if decided then 1 else 0)%nat
    ∧ applies evs = O
    ∧ current_config_hash st' = current_config_hash st
    ∧ (add_layer_error e = None → restarts evs = (if decided then 1 else 0)%nat)
    ∧ (∀ s, In s (status_writes evs) → s = ActiveStatus "")
    ∧ (decided = true → ∀ exc, rejects e exc →
         unit_status st' = unit_status st
         ∧ status_writes evs = []
         ∧ In (restart_failed exc) evs)
    ∧ (decided = false →
         plan st' = plan st
         ∧ restarts evs = O
         ∧ unit_status st'
           = (if is_active (unit_status st) then unit_status st else ActiveStatus "")
         ∧ status_writes evs
           = (if is_active (unit_status st) then [] else [ActiveStatus ""])).
Proof.
  intros Hg Hs Hp decided.
  pose proof (side_events_silent _ (returns_scrape_side _ _ st Hs)) as (As & Is & Rs & Ss).
  pose proof (side_events_silent _ (returns_ports_side _ _ st Hp)) as (Ap & Ip & Rp & Sp).
  rewrite (converge_cases _ _ _ _ _ Hg Hs Hp). cbv zeta.
  replace (if bool_decide (plan st ≠ _build_layer) then true else restart)
    with decided
    by (subst decided; destruct restart, (bool_decide (plan st ≠ _build_layer)); reflexivity).
  assert (Hline : ∀ tail, In (restart_line decided)
                             ((evs_s ++ evs_p ++ [restart_line decided]) ++ tail)).
  { intros tail. apply in_or_app. left. apply in_or_app. right.
    apply in_or_app. right. now left. }
  destruct decided.
  - destruct (restart_pje_summary e st) as (st' & evs & -> & Hi & Ha & Hh & Hr & Hw & Hrej).
    eexists _, _. split; [reflexivity|]. split; [apply Hline|].
    rewrite !installs_app, !applies_app, !restarts_app, !status_writes_app.
    rewrite As, Is, Rs, Ss, Ap, Ip, Rp, Sp, Hi, Ha. cbn [app].
    split; [reflexivity|]. split; [reflexivity|]. split; [exact Hh|].
    split; [intros Hnone; now rewrite (Hr Hnone)|].
    split; [exact Hw|]. split; [|discriminate].
    intros _ exc Hx. destruct (Hrej exc Hx) as (Hu & Hsw & _ & Hin).
    split; [exact Hu|]. split; [exact Hsw|].
    apply in_or_app. now right.
  - destruct (is_active (unit_status st)) eqn:Hact;
      eexists _, _; (split; [reflexivity|]).
    + rewrite <- (app_nil_r (evs_s ++ evs_p ++ [restart_line false])).
      split; [apply Hline|]. rewrite app_nil_r.
      rewrite !installs_app, !applies_app, !restarts_app, !status_writes_app.
      rewrite As, Is, Rs, Ss, Ap, Ip, Rp, Sp. cbn [app].
      repeat split; try reflexivity; try discriminate. intros s [].
    + split; [apply Hline|].
      rewrite !installs_app, !applies_app, !restarts_app, !status_writes_app.
      rewrite As, Is, Rs, Ss, Ap, Ip, Rp, Sp. cbn [app].
      repeat split; try reflexivity; try discriminate.
      intros s [<-|[]]. reflexivity.
Qed.

(** A pass whose apply step goes on reaches the plan comparison, with the
    restart flag set exactly when the fingerprint differed. *)
Lemma configure_goes_on (e : env) (doc : pyval) (st : charm) :
  can_connect e = true →
  returns (generate_exporter_config e) doc [] →
  goes_on e doc st →
  let changed := bool_decide (Some (fingerprint doc) ≠ current_config_hash st) in
  ∃ st1 evs_a,
    (∀ r st' evs', converge e changed st1 = (r, st', evs') →
                   _configure e st = (r, st', (evs_a ++ evs')%list))
    ∧ unit_status st1 = maintenance
    ∧ plan st1 = plan st
    ∧ status_writes evs_a = [maintenance]
    ∧ installs evs_a = O
    ∧ restarts evs_a = O
    ∧ applies evs_a = (if changed then 1 else 0)%nat
    ∧ (current_config_hash st1 = current_config_hash st
       ∨ (push_error e = None ∧ current_config_hash st1 = Some (fingerprint doc))).
Proof.
  intros Hc Hgen Hgo changed.
  pose proof (configure_unfold _ _ st Hc Hgen) as Hu. cbv zeta in Hu.
  fold changed in Hu. subst changed. case_bool_decide as Hne.
  - destruct Hgo as [Heq|[Hv Hpush]]; [contradiction|].
    destruct Hpush as [Hp|(x & Hp & Hx)].
    + rewrite (apply_changed_pushed _ _ _ _ Hv Hp) in Hu.
      exists (with_hash (with_status st maintenance) (fingerprint doc)),
             (pass_head st (fingerprint doc)
                ++ apply_head ++ pushed_events e doc
                ++ [EvLog INFO ("push: " ++ OCI_CONFIG_PATH)])%list.
      split.
      { intros r st' evs' Hconv. rewrite Hconv in Hu. rewrite Hu.
        rewrite <- !app_assoc. reflexivity. }
      split; [reflexivity|]. split; [reflexivity|]. split; [reflexivity|].
      split; [reflexivity|]. split; [reflexivity|]. split; [reflexivity|].
      right. now split.
    + rewrite (apply_changed_push_raises _ _ _ _ _ Hv Hp), Hx in Hu.
      exists (with_status st maintenance),
             (pass_head st (fingerprint doc)
                ++ apply_head ++ pushed_events e doc ++ [push_refused])%list.
      split.
      { intros r st' evs' Hconv. rewrite Hconv in Hu. rewrite Hu.
        rewrite <- !app_assoc. reflexivity. }
      split; [reflexivity|]. split; [reflexivity|]. split; [reflexivity|].
      split; [reflexivity|]. split; [reflexivity|]. split; [reflexivity|].
      now left.
  - exists (with_status st maintenance), (pass_head st (fingerprint doc)).
    split.
    { intros r st' evs' Hconv. rewrite Hconv in Hu. exact Hu. }
    split; [reflexivity|]. split; [reflexivity|]. split; [reflexivity|].
    split; [reflexivity|]. split; [reflexivity|]. split; [reflexivity|].
    now left.
Qed.



(** *** The write fails *)

(** C5, as stated, fails for a write error that is no [ConnectionError]:
    the exception leaves the pass, which logs no error and reaches neither
    the plan comparison nor the restart. *)
Lemma write_failure_counterexample :
  ∃ st evs,
    validate_config doc_valid = Ok tt
    ∧ push_error env_push_denied = Some (Exn OtherError "permission denied")
    ∧ _configure env_push_denied fresh
      = (Raise (Exn OtherError "permission denied"), st, evs)
    ∧ applies evs = 1%nat
    ∧ logged ERROR evs = []
    ∧ installs evs = O
    ∧ restarts evs = O
    ∧ ¬ In (restart_line true) evs.
Proof.
  eexists _, _. split; [vm_compute; reflexivity|]. split; [reflexivity|].
  split; [vm_compute; reflexivity|].
  split; [reflexivity|]. split; [reflexivity|].
  split; [reflexivity|]. split; [reflexivity|].
  simpl. unfold restart_line. intuition discriminate.
Qed.

(** C5, amended: when the configuration changed and the write raises a
    [ConnectionError], the failure is logged, the stored fingerprint stays
    as it was, and the pass goes on with the plan comparison and, the restart
    flag being set, with the restart step, without ever writing [Blocked];
    when the write raises anything else, the exception leaves the pass, the
    stored fingerprint again as it was, no error logged, and neither the
    restart decision nor the restart step reached. *)
Theorem write_failure_keeps_fingerprint
    (e : env) (doc : pyval) (st : charm) (exc : exn) (evs_s evs_p : list event) :
  can_connect e = true →
  returns (generate_exporter_config e) doc [] →
  Some (fingerprint doc) ≠ current_config_hash st →
  validate_config doc = Ok tt →
  push_error e = Some exc →
  (exn_cls exc = ConnectionError →
   get_plan_error e = None →
   returns (reconfigure_scrape_target e) tt evs_s →
   returns (reconfigure_open_ports e) tt evs_p →
   ∃ st' evs,
     _configure e st = (Ok tt, st', evs)
     ∧ current_config_hash st' = current_config_hash st
     ∧ Some (fingerprint doc) ≠ current_config_hash st'
     ∧ In push_refused evs
     ∧ In (restart_line true) evs
     ∧ installs evs = 1%nat
     ∧ ¬ In blocked (status_writes evs))
  ∧ (exn_cls exc ≠ ConnectionError →
     exn_cls exc ≠ ExporterConfigError →
     ∃ evs,
       _configure e st = (Raise exc, with_status st maintenance, evs)
       ∧ current_config_hash (with_status st maintenance) = current_config_hash st
       ∧ installs evs = O ∧ restarts evs = O
       ∧ applies evs = 1%nat
       ∧ logged ERROR evs = []
       ∧ status_writes evs = [maintenance]
       ∧ ∀ restart, ¬ In (restart_line restart) evs).
Proof.
  intros Hc Hgen Hne Hv Hp.
  pose proof (configure_unfold _ _ st Hc Hgen) as Hu. cbv zeta in Hu.
  rewrite bool_decide_eq_true_2 in Hu by exact Hne.
  rewrite (apply_changed_push_raises _ _ _ _ _ Hv Hp) in Hu.
  split.
  - intros Hx Hg Hs Hpo. rewrite Hx in Hu.
    destruct (converge_summary e true (with_status st maintenance) _ _ Hg Hs Hpo)
      as (st' & evs & Hconv & Hline & Hi & _ & Hh & _ & Hw & _).
    rewrite Hconv in Hu. cbn [orb] in *.
    eexists _, _. split; [exact Hu|].
    split; [exact Hh|]. split; [now rewrite Hh|].
    split; [simpl; tauto|].
    split; [do 2 (apply in_or_app; right); exact Hline|].
    rewrite !installs_app, Hi. split; [reflexivity|].
    rewrite !status_writes_app. cbn [status_writes pass_head apply_head pushed_events
                                      push_refused app].
    intros [H|H]; [discriminate|]. apply Hw in H. discriminate.
  - intros Hx1 Hx2.
    assert (Hline : ∀ restart,
              ¬ In (restart_line restart)
                  (pass_head st (fingerprint doc) ++ apply_head ++ pushed_events e doc)).
    { intros restart Hin. cbn [app pass_head apply_head pushed_events In] in Hin.
      cbv [restart_line String.append] in Hin.
      repeat (destruct Hin as [Hin|Hin]; [discriminate Hin|]). exact Hin. }
    destruct (exn_cls exc) eqn:Hx; try contradiction;
      eexists; (split; [exact Hu|]);
      (split; [reflexivity|]); (split; [reflexivity|]); (split; [reflexivity|]);
      (split; [reflexivity|]); (split; [reflexivity|]); (split; [reflexivity|]);
      exact Hline.
Qed.

(** The amended claim at a write that fails with a [ConnectionError]. *)
Lemma write_failure_keeps_fingerprint_witness :
  ∃ st' evs,
    _configure env_push_refused fresh = (Ok tt, st', evs)
    ∧ current_config_hash st' = current_config_hash fresh
    ∧ Some (fingerprint doc_valid) ≠ current_config_hash st'
    ∧ In push_refused evs
    ∧ In (restart_line true) evs
    ∧ installs evs = 1%nat
    ∧ ¬ In blocked (status_writes evs).
Proof.
  refine (proj1 (write_failure_keeps_fingerprint env_push_refused doc_valid fresh
                   (Exn ConnectionError "Connection refused")
                   scrape_events port_events _ _ _ _ _) _ _ _ _).
  - reflexivity.
  - intros st. vm_compute. reflexivity.
  - discriminate.
  - vm_compute. reflexivity.
  - reflexivity.
  - reflexivity.
  - reflexivity.
  - intros st. vm_compute. reflexivity.
  - intros st. vm_compute. reflexivity.
Defined.

(** *** The supervisor rejects the restart *)

(** C6, as stated, fails on the status: the unit was [Active] before the
    pass, the installed command has drifted, the supervisor rejects the
    restart, the error is logged, and the pass ends in the [Maintenance]
    status it wrote on entry, not in the status the unit had before. *)
Lemma restart_rejected_status_counterexample :
  ∃ st' evs,
    _configure env_restart_rejected drifted = (Ok tt, st', evs)
    ∧ unit_status drifted = ActiveStatus ""
    ∧ In (restart_line true) evs
    ∧ restarts evs = 1%nat
    ∧ logged ERROR evs
      = [restart_failed_text (Exn OtherError "cannot start service")]
    ∧ status_writes evs = [maintenance]
    ∧ unit_status st' = maintenance
    ∧ unit_status st' ≠ unit_status drifted.
Proof.
  eexists _, _. split; [vm_compute; reflexivity|].
  split; [reflexivity|]. split; [simpl; unfold restart_line; tauto|].
  split; [reflexivity|]. split; [reflexivity|].
  split; [reflexivity|]. split; [reflexivity|]. discriminate.
Qed.



(** *** The restart decision *)

(** C9: in a pass whose apply step goes on, the restart decision is the
    disjunction of the two signals, the fingerprint differing from the
    stored one and the installed services differing from the desired ones:
    it is what the pass logs, and the supervisor is asked to install and
    restart exactly when it holds; so a drift of the services alone
    triggers the restart. *)
Theorem restart_is_or_of_signals
    (e : env) (doc : pyval) (st : charm) (evs_s evs_p : list event) :
  can_connect e = true →
  returns (generate_exporter_config e) doc [] →
  goes_on e doc st →
  get_plan_error e = None →
  returns (reconfigure_scrape_target e) tt evs_s →
  returns (reconfigure_open_ports e) tt evs_p →
  let changed := bool_decide (Some (fingerprint doc) ≠ current_config_hash st) in
  let drift := bool_decide (plan st ≠ _build_layer) in
  ∃ st' evs,
    _configure e st = (Ok tt, st', evs)
    ∧ In (restart_line (changed || drift)) evs
    ∧ installs evs = (if changed || drift then 1 else 0)%nat
    ∧ (add_layer_error e = None →
       restarts evs = (if changed || drift then 1 else 0)%nat)
    ∧ applies evs = (if changed then 1 else 0)%nat
    ∧ (changed = false → drift = true → installs evs = 1%nat ∧ applies evs = O).
Proof.
  intros Hc Hgen Hgo Hg Hs Hp changed drift.
  destruct (configure_goes_on _ _ _ Hc Hgen Hgo)
    as (st1 & evs_a & Hrun & Hst & Hplan & Hsw & Hi & Hr & Ha & _).
  fold changed in Hrun, Ha.
  destruct (converge_summary e changed st1 _ _ Hg Hs Hp)
    as (st' & evs & Hconv & Hline & Hi' & Ha' & _ & Hr' & _).
  rewrite Hplan in Hline, Hi', Hr'. fold drift in Hline, Hi', Hr'.
  eexists _, _. split; [exact (Hrun _ _ _ Hconv)|].
  split; [apply in_or_app; now right|].
  rewrite installs_app, restarts_app, applies_app, Hi, Hr, Ha, Hi', Ha'.
  split; [reflexivity|]. split; [exact Hr'|].
  split; [now rewrite Nat.add_0_r|].
  intros -> ->. now split.
Qed.

(** C9 at a converged charm whose installed command has drifted: the
    fingerprint is the stored one and the restart is triggered all the
    same. *)
Lemma restart_is_or_of_signals_witness :
  let changed :=
    bool_decide (Some (fingerprint doc_valid) ≠ current_config_hash drifted) in
  let drift := bool_decide (plan drifted ≠ _build_layer) in
  (changed = false ∧ drift = true)
  ∧ ∃ st' evs,
      _configure env_ok drifted = (Ok tt, st', evs)
      ∧ In (restart_line (changed || drift)) evs
      ∧ installs evs = (if changed || drift then 1 else 0)%nat
      ∧ (add_layer_error env_ok = None →
         restarts evs = (if changed || drift then 1 else 0)%nat)
      ∧ applies evs = (if changed then 1 else 0)%nat
      ∧ (changed = false → drift = true → installs evs = 1%nat ∧ applies evs = O).
Proof.
  split.
  - split; [apply bool_decide_eq_false_2; intros H; now apply H|].
    vm_compute. reflexivity.
  - apply (restart_is_or_of_signals env_ok doc_valid drifted scrape_events port_events).
    + reflexivity.
    + intros st. vm_compute. reflexivity.
    + left. reflexivity.
    + reflexivity.
    + intros st. vm_compute. reflexivity.
    + intros st. vm_compute. reflexivity.
Defined.

(** *** Two passes in a row *)


(** C4, as stated, fails when the plan holds a service besides the
    charm's: the configuration is valid, every collaborator succeeds, the
    options and the installed services are the same before and after both
    passes, and the second pass, which writes nothing, installs the layer
    and restarts again.  The second pass starts from an [Active] unit and
    writes [Maintenance], then [Active]. *)
Lemma two_passes_foreign_service_counterexample :
  let st1 := {| unit_status := ActiveStatus "";
                current_config_hash := Some (fingerprint doc_valid);
                plan := plan crowded |} in
  ∃ evs1 evs2,
    validate_config doc_valid = Ok tt
    ∧ _configure env_ok crowded = (Ok tt, st1, evs1)
    ∧ _configure env_ok st1 = (Ok tt, st1, evs2)
    ∧ applies evs1 = 1%nat ∧ installs evs1 = 1%nat ∧ restarts evs1 = 1%nat
    ∧ applies evs2 = O
    ∧ installs evs2 = 1%nat
    ∧ restarts evs2 = 1%nat
    ∧ status_writes evs2 = [maintenance; ActiveStatus ""].
Proof.
  eexists _, _. split; [vm_compute; reflexivity|].
  split; [vm_compute; reflexivity|]. split; [vm_compute; reflexivity|].
  repeat split.
Qed.




End pass_claims.

(** ** The fingerprint *)

Section fingerprint_claims.

Import Exporter Charm Observe Samples.








End fingerprint_claims.

(** ** The translation of option names *)

Section translation.

Import Exporter Charm Observe Samples.

Lemma filter_in_sublists {A} (keep : A → bool) (l : list A) :
  In (List.filter keep l) (sublists l).
Proof.
  induction l as [|x rest IH]; [now left|].
  simpl. apply in_or_app. destruct (keep x); [left|now right].
  apply in_map_iff. eauto.
Qed.

(** Whatever required options are missing, the handler of
    [ExporterConfigError] turns the missing-option line into the same line
    over the charm's option names; [juju.controller_cacert], for which
    [OCI_CONFIG_MAP] has no entry, keeps its name. *)
Lemma translate_missing_line (keep : string → bool) :
  translate (msg_missing (List.filter keep _REQUIRED_CONFIG))
  = msg_missing (charm_option_of <$> List.filter keep _REQUIRED_CONFIG).
Proof.
  assert (Hall : forallb (fun m => String.eqb (translate (msg_missing m))
                                     (msg_missing (charm_option_of <$> m)))
                   (sublists _REQUIRED_CONFIG) = true)
    by (vm_compute; reflexivity).
  rewrite forallb_forall in Hall. apply String.eqb_eq, Hall, filter_in_sublists.
Qed.

Lemma charm_option_names :
  charm_option_of <$> _REQUIRED_CONFIG
  = [ "customer"; "cloud-name"; "controller-url"; "juju.controller_cacert";
      "juju-user"; "juju-password"; "scrape-port"; "scrape-interval";
      "virtual-macs"; "match-interfaces" ].
Proof. reflexivity. Qed.

(** The lines of the value checks name no exporter option and stay as they
    are. *)
Lemma translate_value_lines :
  translate msg_port_not_a_number = msg_port_not_a_number
  ∧ translate msg_interval_not_a_number = msg_interval_not_a_number
  ∧ translate msg_interval_not_positive = msg_interval_not_positive
  ∧ translate (msg_port_invalid 0) = msg_port_invalid 0
  ∧ translate (msg_port_invalid 65535) = msg_port_invalid 65535.
Proof. vm_compute. repeat split. Qed.

End translation.

(** * Further properties *)

(** ** Rendered documents under validation *)

Section rendered_documents.

Import Exporter Charm Observe Samples Further.

(** The required-option loop returns as soon as every option can be
    walked. *)
Lemma missing_among_total (options : list string) (config : pyval) :
  (∀ o, In o options → ∃ v, option_value config o = Ok v) →
  missing_among options config
  = Ok (List.filter
          (fun o => match option_value config o with
                    | Ok v => negb (Py.truthy v)
                    | Raise _ => false
                    end) options).
Proof.
  induction options as [|o rest IH]; intros Hall; [reflexivity|].
  destruct (Hall o (or_introl eq_refl)) as [v Ev].
  cbn [missing_among List.filter]. unfold bind_result.
  rewrite Ev, IH by (intros o' Ho'; apply Hall; now right).
  now destruct (negb (Py.truthy v)).
Qed.


Lemma shaped_option_value (c : ExporterConfig) (endpoint macs matching : pyval) (o : string) :
  In o _REQUIRED_CONFIG →
  option_value (shaped c endpoint macs matching) o
  = Ok (leaf_of c endpoint macs matching o).
Proof.
  unfold _REQUIRED_CONFIG. simpl In.
  intros H. repeat (destruct H as [<-|H]; [reflexivity|]). contradiction.
Qed.

Lemma shaped_required (c : ExporterConfig) (endpoint macs matching : pyval) :
  _validate_required_options (shaped c endpoint macs matching)
  = Ok (List.filter
          (fun o => negb (Py.truthy (leaf_of c endpoint macs matching o)))
          _REQUIRED_CONFIG).
Proof.
  unfold _validate_required_options.
  rewrite missing_among_total
    by (intros o Ho; rewrite (shaped_option_value _ _ _ _ _ Ho); eauto).
  reflexivity.
Qed.

Lemma truthy_pieces (s : string) : Py.truthy (pieces s) = true.
Proof.
  unfold pieces. pose proof (split_not_nil ","%char s) as Hne.
  now destruct (PyStr.split "," s).
Qed.

Lemma controller_endpoint_truthy (c : ExporterConfig) (endpoint : pyval) :
  controller_endpoint c = Ok endpoint →
  (Py.truthy endpoint = true ↔ nonempty_text (controller c)).
Proof.
  unfold controller_endpoint, nonempty_text.
  destruct (controller c) as [|[|a s]|n|b]; simpl; try discriminate; intros [= <-].
  - split; [discriminate|intros (? & ? & [=])].
  - split; [discriminate|intros (? & ? & [=])].
  - split; [eauto|intros _; exact (truthy_pieces (String a s))].
Qed.

Lemma virt_macs_truthy (c : ExporterConfig) (macs : pyval) :
  (if Py.truthy (VAtom (prefixes c))
   then Py.split_commas (VAtom (prefixes c))
   else Ok (VList [])) = Ok macs →
  (Py.truthy macs = true ↔ nonempty_text (prefixes c)).
Proof.
  unfold nonempty_text.
  destruct (prefixes c) as [|[|a s]|n|b]; simpl.
  - intros [= <-]. split; [discriminate|intros (? & ? & [=])].
  - intros [= <-]. split; [discriminate|intros (? & ? & [=])].
  - intros [= <-]. split; [eauto|intros _; exact (truthy_pieces (String a s))].
  - destruct (n =? 0); simpl; [|discriminate].
    intros [= <-]. split; [discriminate|intros (? & ? & [=])].
  - destruct b; simpl; [discriminate|].
    intros [= <-]. split; [discriminate|intros (? & ? & [=])].
Qed.

(** What [render] gives, with the truthiness of its three derived values. *)
Lemma render_cases (c : ExporterConfig) (doc : pyval) :
  render c = Ok doc →
  ∃ endpoint macs matching,
    doc = shaped c endpoint macs matching
    ∧ (Py.truthy endpoint = true ↔ nonempty_text (controller c))
    ∧ (Py.truthy macs = true ↔ nonempty_text (prefixes c))
    ∧ Py.truthy matching = true
    ∧ matching = (if Py.truthy (VAtom (match_interfaces c))
                  then VAtom (match_interfaces c)
                  else VAtom (SStr ".*")).
Proof.
  unfold render, bind_result.
  destruct (controller_endpoint c) as [endpoint|e] eqn:Ee; [|discriminate].
  destruct (if Py.truthy (VAtom (prefixes c)) then _ else _) as [macs|e] eqn:Em;
    [|discriminate].
  intros [= <-]. eexists endpoint, macs, _. split; [reflexivity|].
  split; [exact (controller_endpoint_truthy _ _ Ee)|].
  split; [exact (virt_macs_truthy _ _ Em)|].
  split; [|reflexivity].
  destruct (match_interfaces c) as [|[|a s]|n|[|]]; cbn; try reflexivity.
  destruct (n =? 0) eqn:E; cbn; rewrite ?E; reflexivity.
Qed.

(** The value checks on a rendered document read the port and the interval
    of the configuration. *)
Lemma check_interval_cases (config section raw : pyval) :
  Py.subscript config "exporter" = Ok section →
  Py.subscript section "collect_interval" = Ok raw →
  check_interval config =
    match Py.int raw with
    | Ok n => Ok (if n <? 1 then msg_interval_not_positive else "")
    | Raise e =>
        match exn_cls e with
        | ValueError => Ok msg_interval_not_a_number
        | _ => Raise e
        end
    end.
Proof.
  intros Hs Hr. unfold check_interval, guarded, bind_result. rewrite Hs, Hr.
  destruct (Py.int raw) as [n|e] eqn:E; [reflexivity|].
  destruct (int_raises _ _ E) as [-> | ->]; reflexivity.
Qed.

Lemma shaped_check_port (c : ExporterConfig) (endpoint macs matching : pyval) :
  check_port (shaped c endpoint macs matching) =
    match Py.int (VAtom (port c)) with
    | Ok n => Ok (if (0 <? n) && (n <? 65535) then "" else msg_port_invalid n)
    | Raise e =>
        match exn_cls e with
        | ValueError => Ok msg_port_not_a_number
        | _ => Raise e
        end
    end.
Proof. now eapply (check_port_cases (shaped c endpoint macs matching)). Qed.

Lemma shaped_check_interval (c : ExporterConfig) (endpoint macs matching : pyval) :
  check_interval (shaped c endpoint macs matching) =
    match Py.int (VAtom (interval c)) with
    | Ok n => Ok (if n <? 1 then msg_interval_not_positive else "")
    | Raise e =>
        match exn_cls e with
        | ValueError => Ok msg_interval_not_a_number
        | _ => Raise e
        end
    end.
Proof. now eapply (check_interval_cases (shaped c endpoint macs matching)). Qed.

Lemma validate_config_interval_raises
    (config : pyval) (missing : list string) (perr : string) (e : exn) :
  _validate_required_options config = Ok missing →
  check_port config = Ok perr →
  check_interval config = Raise e →
  validate_config config = Raise e.
Proof.
  intros Hm Hp Hi. unfold validate_config, _validate_option_values, bind_result.
  now rewrite Hm, Hp, Hi.
Qed.








Lemma int_type_error (a : scalar) :
  (∃ e, Py.int (VAtom a) = Raise e ∧ exn_cls e = TypeError) ↔ a = SNone.
Proof.
  destruct a as [|s|n|b]; simpl.
  - split; [reflexivity|eauto].
  - destruct (PyStr.to_Z s); split; try discriminate;
      intros (e & [= <-] & H); discriminate.
  - split; [intros (e & [=] & _)|discriminate].
  - split; [intros (e & [=] & _)|discriminate].
Qed.

(** A value check lets an exception out only for [None], and then a
    [TypeError]. *)
Lemma value_check_raises (a : scalar) (on_ok : Z → string) (msg : string) :
  let check :=
    match Py.int (VAtom a) with
    | Ok n => Ok (on_ok n)
    | Raise e =>
        match exn_cls e with
        | ValueError => Ok msg
        | _ => Raise e
        end
    end in
  (∀ e, check = Raise e → a = SNone ∧ exn_cls e = TypeError)
  ∧ (a = SNone → ∃ e, check = Raise e ∧ exn_cls e = TypeError).
Proof.
  cbv zeta. split.
  - intros e. destruct a as [|s|n|b]; simpl.
    + now intros [= <-].
    + destruct (PyStr.to_Z s); discriminate.
    + discriminate.
    + discriminate.
  - intros ->. simpl. eauto.
Qed.


(** X2: on a rendered document [validate_config] returns, raises
    [ExporterConfigError] or raises [TypeError]; it raises [TypeError], and
    then reports no violation at all, exactly when the port or the interval
    is [None]. *)
Theorem validate_rendered_outcomes (c : ExporterConfig) (doc : pyval) :
  render c = Ok doc →
  ((∃ e, validate_config doc = Raise e ∧ exn_cls e = TypeError)
   ↔ port c = SNone ∨ interval c = SNone)
  ∧ (validate_config doc = Ok tt
     ∨ ∃ e, validate_config doc = Raise e
            ∧ (exn_cls e = ExporterConfigError ∨ exn_cls e = TypeError)).
Proof.
  intros Hr.
  destruct (render_cases _ _ Hr) as (ep & m & mi & -> & _).
  pose proof (shaped_required c ep m mi) as Hreq.
  pose proof (shaped_check_port c ep m mi) as Hport.
  pose proof (shaped_check_interval c ep m mi) as Hint.
  destruct (value_check_raises (port c)
              (fun n => if (0 <? n) && (n <? 65535) then "" else msg_port_invalid n)
              msg_port_not_a_number) as [Pr Pn].
  destruct (value_check_raises (interval c)
              (fun n => if n <? 1 then msg_interval_not_positive else "")
              msg_interval_not_a_number) as [Ir In'].
  cbv beta in Pr, Pn, Ir, In'. rewrite <- Hport in Pr, Pn. rewrite <- Hint in Ir, In'.
  clear Hport Hint.
  set (config := shaped c ep m mi) in *.
  destruct (check_port config) as [perr|e] eqn:Ep.
  - destruct (check_interval config) as [ierr|e] eqn:Ei.
    + pose proof (validate_config_anatomy _ _ _ _ Hreq Ep Ei) as Hv.
      cbv zeta in Hv.
      assert (Hnone : ¬ (port c = SNone ∨ interval c = SNone)).
      { intros [H|H]; [destruct (Pn H) as (x & [=] & _)
                      |destruct (In' H) as (x & [=] & _)]. }
      destruct (String.eqb _ "") in Hv; rewrite Hv.
      * split; [|now left]. split; [intros (x & [=] & _)|contradiction].
      * split; [|right; eexists; split; [reflexivity|now left]].
        split; [|contradiction]. intros (x & Hx1 & Hx2).
        assert (Hc : ExporterConfigError = exn_cls x)
          by exact (f_equal (fun r : result unit =>
                               match r with
                               | Raise y => exn_cls y
                               | Ok _ => ExporterConfigError
                               end) Hx1).
        rewrite Hx2 in Hc. discriminate Hc.
    + rewrite (validate_config_interval_raises _ _ _ _ Hreq Ep Ei).
      destruct (Ir e eq_refl) as [Hi Hc].
      split; [|right; eexists; split; [reflexivity|now right]].
      split; [intros _; now right|intros _; eauto].
  - rewrite (validate_config_port_raises _ _ _ Hreq Ep).
    destruct (Pr e eq_refl) as [Hp Hc].
    split; [|right; eexists; split; [reflexivity|now right]].
    split; [intros _; now left|intros _; eauto].
Qed.

(** X2 at the configuration whose options are all unset. *)
Lemma validate_rendered_outcomes_witness :
  ((∃ e, validate_config (rendered ExporterConfig_default) = Raise e
         ∧ exn_cls e = TypeError)
   ↔ port ExporterConfig_default = SNone ∨ interval ExporterConfig_default = SNone)
  ∧ (validate_config (rendered ExporterConfig_default) = Ok tt
     ∨ ∃ e, validate_config (rendered ExporterConfig_default) = Raise e
            ∧ (exn_cls e = ExporterConfigError ∨ exn_cls e = TypeError)).
Proof.
  apply (validate_rendered_outcomes ExporterConfig_default). reflexivity.
Defined.

(** X3: [render] fails exactly when the controller is a number or the MAC
    prefixes are a truthy number, and then with an [AttributeError]; on
    texts and [None] it always gives a document. *)
Theorem render_raises_iff (c : ExporterConfig) :
  ((∃ e, render c = Raise e)
   ↔ is_number (controller c)
     ∨ (is_number (prefixes c) ∧ Py.truthy (VAtom (prefixes c)) = true))
  ∧ (∀ e, render c = Raise e → exn_cls e = AttributeError).
Proof.
  unfold render, controller_endpoint, bind_result.
  destruct (controller c) as [|[|a s]|n|b]; simpl;
    try (split; [split; [intros _; now left|eauto]|now intros e [= <-]]);
    (destruct (prefixes c) as [|[|a' s']|n'|[|]]; simpl;
     try (destruct (n' =? 0); simpl);
     try (split; [split; [intros _; right; now split|eauto]|now intros e [= <-]]);
     (split; [split; [intros (e & [=])|intros [[]|[H1 H2]]; try destruct H1;
                                       discriminate]
             |intros e [=]])).
Qed.

(** X3 at a controller given as a number. *)
Lemma render_raises_iff_witness :
  ∃ e, render {| debug := SNone; customer := SNone; cloud := SNone;
                 controller := SInt 17070; ca_cert := SNone; user := SNone;
                 password := SNone; interval := SNone; port := SNone;
                 prefixes := SNone; match_interfaces := SNone |} = Raise e.
Proof.
  apply (proj2 (proj1 (render_raises_iff _))). left. exact I.
Defined.

(** X4: in a rendered document the interface pattern is the option when it
    is truthy and [".*"] otherwise, so the required-option check, which
    always returns on a rendered document, never reports it missing. *)
Theorem match_interfaces_never_missing (c : ExporterConfig) (doc : pyval) :
  render c = Ok doc →
  option_value doc "detection.match_interfaces"
  = Ok (if Py.truthy (VAtom (match_interfaces c))
        then VAtom (match_interfaces c)
        else VAtom (SStr ".*"))
  ∧ ∃ missing,
      _validate_required_options doc = Ok missing
      ∧ ¬ In "detection.match_interfaces" missing.
Proof.
  intros Hr.
  destruct (render_cases _ _ Hr) as (ep & m & mi & -> & _ & _ & Hmi & ->).
  split; [reflexivity|].
  eexists. split; [apply shaped_required|].
  rewrite filter_In. intros [_ H].
  cbn [leaf_of String.eqb Ascii.eqb Bool.eqb] in H.
  rewrite Hmi in H. discriminate.
Qed.

(** X4 at the configuration whose options are all unset. *)
Lemma match_interfaces_never_missing_witness :
  option_value (rendered ExporterConfig_default) "detection.match_interfaces"
  = Ok (VAtom (SStr ".*"))
  ∧ ∃ missing,
      _validate_required_options (rendered ExporterConfig_default) = Ok missing
      ∧ ¬ In "detection.match_interfaces" missing.
Proof.
  apply (match_interfaces_never_missing ExporterConfig_default). reflexivity.
Defined.

End rendered_documents.

(** ** Validation of any document *)

Section any_document.

Import Exporter Charm Observe Samples Further.




(** X6: a document without the [exporter] section has both its port and its
    interval reported missing; the value checks take the missing key in
    silence, so the error carries the missing-option line and nothing
    else. *)
Theorem missing_section_reported (d : list (string * pyval)) (missing : list string) :
  Py.lookup "exporter" d = None →
  _validate_required_options (VDict d) = Ok missing →
  In "exporter.port" missing
  ∧ In "exporter.collect_interval" missing
  ∧ check_port (VDict d) = Ok ""
  ∧ check_interval (VDict d) = Ok ""
  ∧ validate_config (VDict d)
    = Raise (Exn ExporterConfigError (msg_missing missing)).
Proof.
  intros Hl Hm.
  assert (Hw : ∀ k, walk (VDict d) ["exporter"; k] = Ok (VDict [])).
  { intros k. simpl. now rewrite Hl. }
  assert (Hp : check_port (VDict d) = Ok "").
  { unfold check_port, guarded, bind_result. simpl. now rewrite Hl. }
  assert (Hi : check_interval (VDict d) = Ok "").
  { unfold check_interval, guarded, bind_result. simpl. now rewrite Hl. }
  assert (H1 : In "exporter.port" missing).
  { apply (missing_among_In _ _ _ Hm). split; [simpl; tauto|].
    exists (VDict []). split; [exact (Hw "port")|reflexivity]. }
  assert (H2 : In "exporter.collect_interval" missing).
  { apply (missing_among_In _ _ _ Hm). split; [simpl; tauto|].
    exists (VDict []). split; [exact (Hw "collect_interval")|reflexivity]. }
  repeat split; try assumption.
  rewrite (validate_config_anatomy _ _ _ _ Hm Hp Hi). cbv zeta.
  destruct missing as [|o rest]; [destruct H1|].
  change (msg_missing (o :: rest) ++ "" ++ "") with (msg_missing (o :: rest) ++ "").
  rewrite append_empty_r. reflexivity.
Qed.

(** X6 at a document that holds the customer section only. *)
Lemma missing_section_reported_witness :
  let d := [("customer", VDict [("name", VAtom (SStr "acme"));
                               ("cloud_name", VAtom (SStr "lab"))])] in
  let missing := [ "juju.controller_endpoint"; "juju.controller_cacert";
                   "juju.username"; "juju.password"; "exporter.port";
                   "exporter.collect_interval"; "detection.virt_macs";
                   "detection.match_interfaces" ] in
  In "exporter.port" missing
  ∧ In "exporter.collect_interval" missing
  ∧ check_port (VDict d) = Ok ""
  ∧ check_interval (VDict d) = Ok ""
  ∧ validate_config (VDict d)
    = Raise (Exn ExporterConfigError (msg_missing missing)).
Proof.
  apply missing_section_reported; reflexivity.
Defined.

(** X7: when the customer section of a document is not a dictionary, the
    required-option check raises an [AttributeError], and so does
    [validate_config]: no violation is reported. *)
Theorem section_not_a_dictionary (d : list (string * pyval)) (v : pyval) :
  Py.lookup "customer" d = Some v →
  (∀ d', v ≠ VDict d') →
  ∃ e, _validate_required_options (VDict d) = Raise e
       ∧ validate_config (VDict d) = Raise e
       ∧ exn_cls e = AttributeError.
Proof.
  intros Hl Hv.
  assert (Hw : ∃ e, option_value (VDict d) "customer.name" = Raise e
                    ∧ exn_cls e = AttributeError).
  { change (option_value (VDict d) "customer.name")
      with (walk (VDict d) ["customer"; "name"]).
    cbn [walk Py.get]. rewrite Hl. cbn [default bind_result].
    destruct v as [a|l|d']; [| |now destruct (Hv d')]; simpl; eauto. }
  destruct Hw as (e & Hw & He). exists e.
  assert (Hr : _validate_required_options (VDict d) = Raise e).
  { unfold _validate_required_options, _REQUIRED_CONFIG.
    cbn [missing_among]. unfold bind_result at 1. now rewrite Hw. }
  split; [exact Hr|]. split; [|exact He].
  unfold validate_config, bind_result. now rewrite Hr.
Qed.

(** X7 at a document whose customer is a text. *)
Lemma section_not_a_dictionary_witness :
  ∃ e, _validate_required_options (VDict [("customer", VAtom (SStr "acme"))]) = Raise e
       ∧ validate_config (VDict [("customer", VAtom (SStr "acme"))]) = Raise e
       ∧ exn_cls e = AttributeError.
Proof.
  apply (section_not_a_dictionary _ (VAtom (SStr "acme"))); [reflexivity|discriminate].
Defined.

End any_document.

(** ** Passes that an exception leaves *)

Section aborted_passes.

Import Exporter Charm Observe Samples Further.

(** A rendered document whose port or interval is [None] makes
    [validate_config] raise a [TypeError]. *)
Lemma rendered_none_raises (c : ExporterConfig) (doc : pyval) :
  render c = Ok doc →
  port c = SNone ∨ interval c = SNone →
  ∃ exc, validate_config doc = Raise exc ∧ exn_cls exc = TypeError.
Proof.
  intros Hr Hnone.
  destruct (render_cases _ _ Hr) as (ep & m & mi & -> & _).
  pose proof (shaped_required c ep m mi) as Hreq.
  pose proof (shaped_check_port c ep m mi) as Hport.
  pose proof (shaped_check_interval c ep m mi) as Hint.
  destruct (port c) as [|s|n|b] eqn:Ep.
  - eexists. split; [exact (validate_config_port_raises _ _ _ Hreq Hport)|reflexivity].
  - destruct Hnone as [[=]|Hi]. rewrite Hi in Hint.
    destruct (check_port _) as [perr|x] eqn:Ecp.
    + eexists. split;
        [exact (validate_config_interval_raises _ _ _ _ Hreq Ecp Hint)|reflexivity].
    + simpl in Hport. destruct (PyStr.to_Z s); discriminate.
  - destruct Hnone as [[=]|Hi]. rewrite Hi in Hint. simpl in Hport.
    eexists. split;
      [exact (validate_config_interval_raises _ _ _ _ Hreq Hport Hint)|reflexivity].
  - destruct Hnone as [[=]|Hi]. rewrite Hi in Hint. simpl in Hport.
    eexists. split;
      [exact (validate_config_interval_raises _ _ _ _ Hreq Hport Hint)|reflexivity].
Qed.

(** Validation raises something the handlers of [_configure] do not catch. *)
Lemma apply_changed_validation_raises
    (e : env) (doc : pyval) (h : string) (st : charm) (exc : exn) :
  validate_config doc = Raise exc →
  exn_cls exc ≠ ExporterConfigError →
  exn_cls exc ≠ ConnectionError →
  apply_changed e doc h st = (Raise exc, st, apply_head).
Proof.
  intros Hv H1 H2. unfold apply_changed, apply_config. run. rewrite Hv.
  cbv beta iota zeta. destruct (exn_cls exc); try contradiction; now tidy.
Qed.

(** X8: when the port or the interval option is unset, a pass over a changed
    configuration ends with the [TypeError] of the validation: the status
    stays [Maintenance], never [Blocked]; nothing is logged as an error,
    written, installed or restarted, and the stored fingerprint is as
    before. *)
Theorem unset_option_leaves_pass
    (e : env) (c : ExporterConfig) (doc : pyval) (st : charm) :
  can_connect e = true →
  returns (generate_exporter_config e) doc [] →
  render c = Ok doc →
  port c = SNone ∨ interval c = SNone →
  Some (fingerprint doc) ≠ current_config_hash st →
  ∃ exc evs,
    _configure e st = (Raise exc, with_status st maintenance, evs)
    ∧ exn_cls exc = TypeError
    ∧ status_writes evs = [maintenance]
    ∧ logged ERROR evs = []
    ∧ applies evs = O ∧ installs evs = O ∧ restarts evs = O
    ∧ current_config_hash (with_status st maintenance) = current_config_hash st.
Proof.
  intros Hc Hgen Hr Hnone Hne.
  destruct (rendered_none_raises _ _ Hr Hnone) as (exc & Hv & Hcls).
  rewrite (configure_unfold _ _ _ Hc Hgen). cbv zeta.
  rewrite bool_decide_eq_true_2 by exact Hne.
  rewrite (apply_changed_validation_raises _ _ _ _ _ Hv)
    by (rewrite Hcls; discriminate).
  exists exc. eexists. split; [reflexivity|]. split; [exact Hcls|]. repeat split.
Qed.

(** X8 at options without [scrape-interval]. *)
Lemma unset_option_leaves_pass_witness :
  ∃ exc evs,
    _configure env_no_interval fresh = (Raise exc, with_status fresh maintenance, evs)
    ∧ exn_cls exc = TypeError
    ∧ status_writes evs = [maintenance]
    ∧ logged ERROR evs = []
    ∧ applies evs = O ∧ installs evs = O ∧ restarts evs = O
    ∧ current_config_hash (with_status fresh maintenance) = current_config_hash fresh.
Proof.
  apply (unset_option_leaves_pass env_no_interval
           (exporter_config_of env_no_interval (SStr "CERT"))
           (rendered (exporter_config_of env_no_interval (SStr "CERT")))).
  - reflexivity.
  - intros st. vm_compute. reflexivity.
  - vm_compute. reflexivity.
  - right. vm_compute. reflexivity.
  - discriminate.
Defined.

(** What [get_controller_ca_cert] does, by the certificate option. *)
Lemma get_controller_ca_cert_cases (e : env) (st : charm) :
  get_controller_ca_cert e st =
    let explicit_cert := default (SStr "") (config e !! "controller-ca-cert") in
    if Py.truthy (VAtom explicit_cert) then
      match b64decode_ascii e explicit_cert with
      | Ok cert => (Ok cert, st, [])
      | Raise exc =>
          match exn_cls exc with
          | Base64Error =>
              (Raise (Exn RuntimeError
                        "Invalid base64 value in 'controller-ca-cert' option."),
               st,
               [EvLog ERROR
                  ("Config option 'controller-ca-cert' does not contain valid base64-encoded"
                     ++ " data. Bad data: " ++ Py.str (VAtom explicit_cert))])
          | _ => (Raise exc, st, [])
          end
      end
    else
      match agent_cacert e with
      | Ok cert =>
          if Py.truthy (VAtom cert) then (Ok cert, st, [])
          else (Raise (Exn RuntimeError
                         "Charm failed to fetch controller's CA certificate."),
                st, [])
      | Raise exc => (Raise exc, st, [])
      end.
Proof.
  unfold get_controller_ca_cert. cbv zeta.
  destruct (Py.truthy (VAtom (default (SStr "") (config e !! "controller-ca-cert")))).
  - run. destruct (b64decode_ascii e _) as [cert|exc]; [reflexivity|].
    destruct (exn_cls exc); reflexivity.
  - run. destruct (agent_cacert e) as [cert|exc]; [|reflexivity].
    destruct (Py.truthy (VAtom cert)); reflexivity.
Qed.

(** X9: when the certificate option is unset or empty, a document that
    [generate_exporter_config] gives carries the truthy certificate of the
    agent configuration, and the required-option check never reports
    [juju.controller_cacert] missing. *)
Theorem agent_certificate_never_missing
    (e : env) (st st' : charm) (doc : pyval) (evs : list event) :
  Py.truthy (VAtom (default (SStr "") (config e !! "controller-ca-cert"))) = false →
  generate_exporter_config e st = (Ok doc, st', evs) →
  ∃ cert missing,
    agent_cacert e = Ok cert
    ∧ Py.truthy (VAtom cert) = true
    ∧ option_value doc "juju.controller_cacert" = Ok (VAtom cert)
    ∧ _validate_required_options doc = Ok missing
    ∧ ¬ In "juju.controller_cacert" missing.
Proof.
  intros Hx Hgen. unfold generate_exporter_config in Hgen.
  pose proof (get_controller_ca_cert_cases e st) as Hcert. cbv zeta in Hcert.
  rewrite Hx in Hcert. revert Hgen. run. rewrite Hcert.
  destruct (agent_cacert e) as [cert|exc]; [|discriminate].
  destruct (Py.truthy (VAtom cert)) eqn:Ht; [|discriminate].
  destruct (render (exporter_config_of e cert)) as [doc'|exc] eqn:Hr; [|discriminate].
  intros [= <- <- <-].
  destruct (render_cases _ _ Hr) as (ep & m & mi & -> & _).
  exists cert. eexists. split; [reflexivity|]. split; [exact Ht|].
  split; [reflexivity|]. split; [apply shaped_required|].
  rewrite filter_In. intros [_ H].
  cbn [leaf_of String.eqb Ascii.eqb Bool.eqb exporter_config_of ca_cert] in H.
  rewrite Ht in H. discriminate.
Qed.

(** X9 at the sample options, which set no certificate. *)
Lemma agent_certificate_never_missing_witness :
  ∃ cert missing,
    agent_cacert env_ok = Ok cert
    ∧ Py.truthy (VAtom cert) = true
    ∧ option_value doc_valid "juju.controller_cacert" = Ok (VAtom cert)
    ∧ _validate_required_options doc_valid = Ok missing
    ∧ ¬ In "juju.controller_cacert" missing.
Proof.
  apply (agent_certificate_never_missing env_ok fresh fresh doc_valid []).
  - reflexivity.
  - vm_compute. reflexivity.
Defined.

(** X10: a pass that cannot get a certificate raises a [RuntimeError] right
    after writing [Maintenance], before anything is rendered: with no
    certificate option and a falsy certificate in the agent configuration,
    and with a certificate option that is no base64 text, which is logged as
    an error first. *)
Theorem certificate_failures (e : env) (st : charm) :
  can_connect e = true →
  let explicit_cert := default (SStr "") (config e !! "controller-ca-cert") in
  (Py.truthy (VAtom explicit_cert) = false →
   ∀ cert, agent_cacert e = Ok cert → Py.truthy (VAtom cert) = false →
   _configure e st =
     (Raise (Exn RuntimeError "Charm failed to fetch controller's CA certificate."),
      with_status st maintenance,
      [EvLog INFO "Processing new charm configuration."; EvStatus maintenance]))
  ∧ (Py.truthy (VAtom explicit_cert) = true →
     ∀ exc, b64decode_ascii e explicit_cert = Raise exc → exn_cls exc = Base64Error →
     _configure e st =
       (Raise (Exn RuntimeError "Invalid base64 value in 'controller-ca-cert' option."),
        with_status st maintenance,
        [ EvLog INFO "Processing new charm configuration.";
          EvStatus maintenance;
          EvLog ERROR
            ("Config option 'controller-ca-cert' does not contain valid base64-encoded"
               ++ " data. Bad data: " ++ Py.str (VAtom explicit_cert)) ])).
Proof.
  intros Hc explicit_cert.
  pose proof (get_controller_ca_cert_cases e (with_status st maintenance)) as Hcert.
  cbv zeta in Hcert. fold explicit_cert in Hcert.
  split.
  - intros Hx cert Ha Ht. rewrite Hx, Ha, Ht in Hcert.
    unfold _configure, generate_exporter_config. rewrite Hc. cbn [negb]. run.
    unfold maintenance in Hcert. unfold with_status in Hcert. rewrite Hcert.
    reflexivity.
  - intros Hx exc Hb Hcls. rewrite Hx, Hb, Hcls in Hcert.
    unfold _configure, generate_exporter_config. rewrite Hc. cbn [negb]. run.
    unfold maintenance in Hcert. unfold with_status in Hcert. rewrite Hcert.
    reflexivity.
Qed.

(** X10 without any certificate. *)
Lemma certificate_failures_witness :
  _configure env_no_cert fresh =
    (Raise (Exn RuntimeError "Charm failed to fetch controller's CA certificate."),
     with_status fresh maintenance,
     [EvLog INFO "Processing new charm configuration."; EvStatus maintenance]).
Proof.
  refine (proj1 (certificate_failures env_no_cert fresh _) _ SNone _ _); reflexivity.
Defined.

End aborted_passes.

(** ** The port and scrape-target steps *)

Section side_steps.

Import Exporter Charm Observe Samples Further.

Lemma closed_ports_app (a b : list event) :
  closed_ports (a ++ b) = (closed_ports a ++ closed_ports b)%list.
Proof. induction a as [|ev a IH]; [reflexivity|]. destruct ev; simpl; now rewrite ?IH. Qed.

Lemma opened_app (a b : list event) : opened (a ++ b) = (opened a ++ opened b)%list.
Proof. induction a as [|ev a IH]; [reflexivity|]. destruct ev; simpl; now rewrite ?IH. Qed.

(** The loop over well-formed port specifications closes each of them, in
    order. *)
Lemma close_ports_well_formed (specs : list string) (parts : list (string * string))
    (st : charm) :
  Forall2 (fun spec part => port_spec_parts spec = Some part) specs parts →
  ∃ evs, close_ports specs st = (Ok tt, st, evs)
         ∧ closed_ports evs = parts ∧ opened evs = [].
Proof.
  induction 1 as [|spec [p proto] specs parts Hspec _ (evs & IH & Hc & Ho)].
  - exists []. now split.
  - unfold port_spec_parts in Hspec. cbn [close_ports].
    destruct (PyStr.split "/" spec) as [|a [|b [|x l]]]; try discriminate.
    injection Hspec as -> ->. run. rewrite IH.
    eexists. split; [reflexivity|]. cbn [app closed_ports opened].
    now rewrite Hc, Ho.
Qed.

(** The loop stops at the first specification that does not split in two,
    with a [ValueError], after closing the ports before it. *)
Lemma close_ports_malformed (good : list string) (parts : list (string * string))
    (bad : string) (rest : list string) (st : charm) :
  Forall2 (fun spec part => port_spec_parts spec = Some part) good parts →
  port_spec_parts bad = None →
  ∃ exc evs, close_ports (good ++ bad :: rest) st = (Raise exc, st, evs)
             ∧ exn_cls exc = ValueError
             ∧ closed_ports evs = parts ∧ opened evs = [].
Proof.
  intros Hgood Hbad.
  induction Hgood as [|spec [p proto] specs parts Hspec _ (exc & evs & IH & Hx & Hc & Ho)].
  - unfold port_spec_parts in Hbad. cbn [app close_ports].
    destruct (PyStr.split "/" bad) as [|a [|b [|x l]]]; try discriminate;
      eexists _, _; (split; [reflexivity|]); now repeat split.
  - unfold port_spec_parts in Hspec. cbn [app close_ports].
    destruct (PyStr.split "/" spec) as [|a [|b [|x l]]]; try discriminate.
    injection Hspec as -> ->. run. rewrite IH.
    eexists _, _. split; [reflexivity|]. split; [exact Hx|].
    cbn [app closed_ports opened]. now rewrite Hc, Ho.
Qed.

(** X11: with the port option set and every opened port of the form
    [port/protocol], [reconfigure_open_ports] closes each opened port, in
    order, and then opens the configured port, once and last. *)
Theorem open_ports_closes_then_opens
    (e : env) (st : charm) (new_port : scalar) (parts : list (string * string)) :
  config e !! "scrape-port" = Some new_port →
  Forall2 (fun spec part => port_spec_parts spec = Some part) (opened_ports e) parts →
  ∃ evs,
    reconfigure_open_ports e st = (Ok tt, st, evs)
    ∧ closed_ports evs = parts
    ∧ opened evs = [new_port]
    ∧ last evs = Some (EvOpenPort new_port).
Proof.
  intros Hport Hspecs.
  destruct (close_ports_well_formed _ _ st Hspecs) as (evs & Hclose & Hc & Ho).
  unfold reconfigure_open_ports, config_item. rewrite Hport. run. rewrite Hclose.
  eexists. split; [reflexivity|]. cbn [app].
  rewrite closed_ports_app, opened_app, Hc, Ho. cbn [closed_ports opened app].
  split; [now rewrite app_nil_r|]. split; [reflexivity|].
  now rewrite !last_app.
Qed.

(** X11 at two opened ports. *)
Lemma open_ports_closes_then_opens_witness :
  ∃ evs,
    reconfigure_open_ports
      {| can_connect := true; config := options_valid;
         b64decode_ascii := fun _ => Ok SNone; agent_cacert := Ok SNone;
         safe_dump := Py.str; push_error := None; get_plan_error := None;
         add_layer_error := None; restart_error := None; expose_error := None;
         opened_ports := ["80/tcp"; "5000/udp"] |} fresh
    = (Ok tt, fresh, evs)
    ∧ closed_ports evs = [("80", "tcp"); ("5000", "udp")]
    ∧ opened evs = [SInt 5000]
    ∧ last evs = Some (EvOpenPort (SInt 5000)).
Proof.
  apply open_ports_closes_then_opens; [reflexivity|].
  repeat constructor.
Defined.

(** X12: an opened port that is not of the form [port/protocol] makes
    [reconfigure_open_ports] raise a [ValueError] after it has closed the
    ports listed before it; the configured port is then not opened. *)
Theorem open_ports_malformed
    (e : env) (st : charm) (new_port : scalar)
    (good : list string) (parts : list (string * string))
    (bad : string) (rest : list string) :
  config e !! "scrape-port" = Some new_port →
  opened_ports e = (good ++ bad :: rest)%list →
  Forall2 (fun spec part => port_spec_parts spec = Some part) good parts →
  port_spec_parts bad = None →
  ∃ exc evs,
    reconfigure_open_ports e st = (Raise exc, st, evs)
    ∧ exn_cls exc = ValueError
    ∧ closed_ports evs = parts
    ∧ opened evs = [].
Proof.
  intros Hport Hspecs Hgood Hbad.
  destruct (close_ports_malformed _ _ _ rest st Hgood Hbad)
    as (exc & evs & Hclose & Hx & Hc & Ho).
  unfold reconfigure_open_ports, config_item. rewrite Hport, Hspecs. run.
  rewrite Hclose. exists exc, evs. now repeat split.
Qed.

(** X12 at a port without protocol after a well-formed one. *)
Lemma open_ports_malformed_witness :
  ∃ exc evs,
    reconfigure_open_ports
      {| can_connect := true; config := options_valid;
         b64decode_ascii := fun _ => Ok SNone; agent_cacert := Ok SNone;
         safe_dump := Py.str; push_error := None; get_plan_error := None;
         add_layer_error := None; restart_error := None; expose_error := None;
         opened_ports := ["80/tcp"; "5000"; "443/tcp"] |} fresh
    = (Raise exc, fresh, evs)
    ∧ exn_cls exc = ValueError
    ∧ closed_ports evs = [("80", "tcp")]
    ∧ opened evs = [].
Proof.
  apply (open_ports_malformed _ _ (SInt 5000) ["80/tcp"] _ "5000" ["443/tcp"]);
    [reflexivity|reflexivity|repeat constructor|reflexivity].
Defined.

(** X13: [reconfigure_scrape_target] registers the target only when the
    port, interval and timeout options are all set: an unset one gives a
    [KeyError] before any registration (a [TypeError] when the interval is
    [None]).  With an integer interval [n] the
    registered interval is [n * 60] followed by ["s"]; the step returns
    exactly when the three options are set, the interval is not [None] and
    the registration succeeds. *)
Theorem scrape_target_outcome (e : env) (st : charm) :
  ∃ r evs,
    reconfigure_scrape_target e st = (r, st, evs)
    ∧ (r = Ok tt
       ↔ (∃ p i t, config e !! "scrape-port" = Some p
                   ∧ config e !! "scrape-interval" = Some i ∧ i ≠ SNone
                   ∧ config e !! "scrape-timeout" = Some t)
         ∧ expose_error e = None)
    ∧ (∀ p n t,
         config e !! "scrape-port" = Some p →
         config e !! "scrape-interval" = Some (SInt n) →
         config e !! "scrape-timeout" = Some t →
         scrape_targets evs
         = [(p, PyStr.of_Z (n * 60) ++ "s", Py.str (VAtom t) ++ "s")])
    ∧ (config e !! "scrape-port" = None
       ∨ config e !! "scrape-interval" = None
       ∨ config e !! "scrape-timeout" = None →
       scrape_targets evs = []
       ∧ ∃ exc, r = Raise exc
                ∧ (exn_cls exc = KeyError
                   ∨ config e !! "scrape-interval" = Some SNone)).
Proof.
  unfold reconfigure_scrape_target, config_item. run.
  destruct (config e !! "scrape-port") as [p|]; run.
  2:{ eexists _, _. split; [reflexivity|]. split; [|split].
      - split; [discriminate|intros [(? & ? & ? & [=] & _) _]].
      - discriminate.
      - intros _. split; [reflexivity|eauto]. }
  destruct (config e !! "scrape-interval") as [i|]; run.
  2:{ eexists _, _. split; [reflexivity|]. split; [|split].
      - split; [discriminate|intros [(? & ? & ? & _ & [=] & _) _]].
      - discriminate.
      - intros _. split; [reflexivity|eauto]. }
  destruct (times_60 i) as [interval|x] eqn:E60; run.
  2:{ destruct i; try discriminate.
      eexists _, _. split; [reflexivity|]. split; [|split].
      - split; [discriminate|intros [(? & ? & ? & _ & [= <-] & H & _) _]; congruence].
      - discriminate.
      - intros _. split; [reflexivity|eauto]. }
  destruct (config e !! "scrape-timeout") as [t|]; run.
  2:{ eexists _, _. split; [reflexivity|]. split; [|split].
      - split; [discriminate|intros [(? & ? & ? & _ & _ & _ & [=]) _]].
      - discriminate.
      - intros _. split; [reflexivity|eauto]. }
  assert (Hi : i ≠ SNone) by (intros ->; discriminate).
  destruct (expose_error e) as [exc|] eqn:Ex; run.
  - destruct (exn_cls exc) eqn:C; eexists _, _; (split; [reflexivity|]);
      (split; [split; [discriminate|intros [_ [=]]]|]);
      (split; [intros ? n ? [= <-] [= ->] [= <-]; injection E60 as <-; reflexivity
              |intros [[=]|[[=]|[=]]]]).
  - eexists _, _. split; [reflexivity|].
    split; [split; [intros _; split; [eauto 10|reflexivity]|reflexivity]|].
    split; [intros ? n ? [= <-] [= ->] [= <-]; injection E60 as <-; reflexivity
           |intros [[=]|[[=]|[=]]]].
Qed.

(** X13 at the sample options: 15 minutes are registered as 900 seconds. *)
Lemma scrape_target_outcome_witness :
  ∃ r evs,
    reconfigure_scrape_target env_ok fresh = (r, fresh, evs)
    ∧ r = Ok tt
    ∧ scrape_targets evs = [(SInt 5000, "900s", "30s")].
Proof.
  destruct (scrape_target_outcome env_ok fresh) as (r & evs & Hrun & Hok & Hint & _).
  exists r, evs. split; [exact Hrun|]. split.
  - apply Hok. split; [|reflexivity].
    exists (SInt 5000), (SInt 15), (SInt 30). repeat split. discriminate.
  - exact (Hint (SInt 5000) 15 (SInt 30) eq_refl eq_refl eq_refl).
Defined.

End side_steps.

(** ** Passes in a row *)

Section passes_in_a_row.

Import Exporter Charm Observe Samples Further.






(** The restart step leaves the services of other names as they are. *)
Lemma restart_pje_other_services (e : env) (st st' : charm) (r : result unit)
    (evs : list event) (n : string) :
  restart_pje e st = (r, st', evs) →
  n ≠ name →
  plan st' !! n = plan st !! n.
Proof.
  rewrite restart_pje_cases. intros H Hn.
  assert (Hl : (_build_layer ∪ plan st) !! n = plan st !! n).
  { rewrite lookup_union. unfold _build_layer.
    rewrite lookup_singleton_ne by congruence. now destruct (plan st !! n). }
  destruct (add_layer_error e); [|destruct (restart_error e)];
    injection H as _ <- _; [reflexivity|exact Hl|exact Hl].
Qed.

(** X16: while the plan holds a service under another name than the
    charm's, the installed services differ from the desired ones: every pass
    whose apply step goes on asks the supervisor to install the layer, and
    the other service is still in the plan afterwards, so the next pass does
    the same. *)
Theorem foreign_service_restarts_every_pass
    (e : env) (doc : pyval) (st : charm) (n : string) (svc : gmap string string)
    (evs_s evs_p : list event) :
  can_connect e = true →
  returns (generate_exporter_config e) doc [] →
  goes_on e doc st →
  get_plan_error e = None →
  returns (reconfigure_scrape_target e) tt evs_s →
  returns (reconfigure_open_ports e) tt evs_p →
  n ≠ name →
  plan st !! n = Some svc →
  ∃ st' evs,
    _configure e st = (Ok tt, st', evs)
    ∧ installs evs = 1%nat
    ∧ In (restart_line true) evs
    ∧ plan st' !! n = Some svc
    ∧ plan st' ≠ _build_layer.
Proof.
  intros Hc Hgen Hgo Hg Hs Hp Hn Hsvc.
  assert (Hdiff : ∀ m : services, m !! n = Some svc → m ≠ _build_layer).
  { intros m Hm Heq. rewrite Heq in Hm. unfold _build_layer in Hm.
    rewrite lookup_singleton_ne in Hm by congruence. discriminate. }
  destruct (configure_goes_on _ _ _ Hc Hgen Hgo)
    as (st1 & evs_a & Hrun & _ & Hplan & _ & Hi & _).
  pose proof (side_events_silent _ (returns_scrape_side _ _ st Hs)) as (_ & Is & _).
  pose proof (side_events_silent _ (returns_ports_side _ _ st Hp)) as (_ & Ip & _).
  pose proof (converge_cases e
                (bool_decide (Some (fingerprint doc) ≠ current_config_hash st))
                st1 _ _ Hg Hs Hp) as Hconv.
  cbv zeta in Hconv.
  rewrite (bool_decide_eq_true_2 (plan st1 ≠ _build_layer)) in Hconv
    by (apply Hdiff; now rewrite Hplan).
  cbv beta iota zeta in Hconv.
  destruct (restart_pje e st1) as [[r st'] evs] eqn:Hr.
  pose proof (restart_pje_other_services _ _ _ _ _ _ Hr Hn) as Hkeep.
  destruct (restart_pje_summary e st1) as (st'' & evs'' & Hr' & Hi' & _).
  rewrite Hr in Hr'. injection Hr' as -> <- <-.
  exists st'. eexists. split; [exact (Hrun _ _ _ Hconv)|].
  rewrite !installs_app, Hi, Is, Ip, Hi'. split; [reflexivity|].
  split; [apply in_or_app; right; apply in_or_app; left;
          do 2 (apply in_or_app; right); now left|].
  rewrite Hkeep, Hplan. split; [exact Hsvc|].
  apply Hdiff. now rewrite Hkeep, Hplan.
Qed.

(** X16 at a container that runs a sidecar besides. *)
Lemma foreign_service_restarts_every_pass_witness :
  ∃ st' evs,
    _configure env_ok crowded = (Ok tt, st', evs)
    ∧ installs evs = 1%nat
    ∧ In (restart_line true) evs
    ∧ plan st' !! "sidecar" = Some {[ "command" := "/bin/sidecar" ]}
    ∧ plan st' ≠ _build_layer.
Proof.
  apply (foreign_service_restarts_every_pass env_ok doc_valid crowded "sidecar"
           {[ "command" := "/bin/sidecar" ]} scrape_events port_events).
  - reflexivity.
  - intros st. vm_compute. reflexivity.
  - right. split; [vm_compute; reflexivity|now left].
  - reflexivity.
  - intros st. vm_compute. reflexivity.
  - intros st. vm_compute. reflexivity.
  - discriminate.
  - reflexivity.
Defined.

(** X17: a pass whose collaborators all succeed, over a valid document or
    over the one whose fingerprint is stored, returns with the status
    [Active], the fingerprint of the document stored and every service the
    plan had under another name than the charm's still there. *)
Theorem successful_pass_ends_active
    (e : env) (doc : pyval) (st : charm) (evs_s evs_p : list event) :
  can_connect e = true →
  returns (generate_exporter_config e) doc [] →
  Some (fingerprint doc) = current_config_hash st
  ∨ (validate_config doc = Ok tt ∧ push_error e = None) →
  get_plan_error e = None →
  add_layer_error e = None →
  restart_error e = None →
  returns (reconfigure_scrape_target e) tt evs_s →
  returns (reconfigure_open_ports e) tt evs_p →
  ∃ st' evs,
    _configure e st = (Ok tt, st', evs)
    ∧ unit_status st' = ActiveStatus ""
    ∧ current_config_hash st' = Some (fingerprint doc)
    ∧ last (status_writes evs) = Some (ActiveStatus "")
    ∧ (∀ n, n ≠ name → plan st' !! n = plan st !! n).
Proof.
  intros Hc Hgen Hok Hg Hadd Hres Hs Hp.
  pose proof (side_events_silent _ (returns_scrape_side _ _ st Hs)) as (_ & _ & _ & Ss).
  pose proof (side_events_silent _ (returns_ports_side _ _ st Hp)) as (_ & _ & _ & Sp).
  assert (Hl : ∀ n, n ≠ name → (_build_layer ∪ plan st) !! n = plan st !! n).
  { intros n Hn. rewrite lookup_union. unfold _build_layer.
    rewrite lookup_singleton_ne by congruence. now destruct (plan st !! n). }
  pose proof (configure_unfold _ _ st Hc Hgen) as H1. cbv zeta in H1.
  destruct (decide (Some (fingerprint doc) = current_config_hash st)) as [Heq|Hne].
  - rewrite bool_decide_eq_false_2 in H1 by (intros H; now apply H).
    rewrite (converge_cases _ _ _ _ _ Hg Hs Hp) in H1. cbv zeta in H1.
    rewrite restart_pje_cases, Hadd, Hres in H1.
    cbn [with_status plan unit_status is_active maintenance] in H1.
    destruct (bool_decide (plan st ≠ _build_layer)); cbv beta iota zeta in H1;
      eexists _, _; (split; [exact H1|]);
      rewrite !status_writes_app, Ss, Sp; cbn [app status_writes pass_head restart_line];
      (split; [reflexivity|]); (split; [now symmetry|]); (split; [reflexivity|]);
      intros n Hn; cbn [plan with_status with_layer]; auto.
  - destruct Hok as [Heq|[Hv Hpush]]; [contradiction|].
    rewrite bool_decide_eq_true_2 in H1 by exact Hne.
    rewrite (apply_changed_pushed _ _ _ _ Hv Hpush) in H1.
    rewrite (converge_cases _ _ _ _ _ Hg Hs Hp) in H1. cbv zeta in H1.
    replace (if bool_decide _ then true else true) with true in H1
      by now destruct (bool_decide _).
    rewrite restart_pje_cases, Hadd, Hres in H1.
    eexists _, _. split; [exact H1|].
    rewrite !status_writes_app, Ss, Sp.
    split; [reflexivity|]. split; [reflexivity|]. split; [reflexivity|].
    intros n Hn. cbn [plan with_status with_layer with_hash]. auto.
Qed.

(** X17 at a first pass. *)
Lemma successful_pass_ends_active_witness :
  ∃ st' evs,
    _configure env_ok fresh = (Ok tt, st', evs)
    ∧ unit_status st' = ActiveStatus ""
    ∧ current_config_hash st' = Some (fingerprint doc_valid)
    ∧ last (status_writes evs) = Some (ActiveStatus "")
    ∧ (∀ n, n ≠ name → plan st' !! n = plan fresh !! n).
Proof.
  apply (successful_pass_ends_active env_ok doc_valid fresh scrape_events port_events).
  - reflexivity.
  - intros st. vm_compute. reflexivity.
  - right. split; [vm_compute; reflexivity|reflexivity].
  - reflexivity.
  - reflexivity.
  - reflexivity.
  - intros st. vm_compute. reflexivity.
  - intros st. vm_compute. reflexivity.
Defined.

End passes_in_a_row.

(** ** What the operator reads in the log *)

Section operator_log.

Import Exporter Charm Observe Samples Further.

(** X18: when required options are missing and the value checks report
    nothing, the pass over the changed configuration logs one error: the
    missing-option line with every option under the name the charm gives it
    ([juju.controller_cacert], which the charm has no option for, under its
    own name); the status is [Blocked]. *)
Theorem missing_options_logged_by_charm_name
    (e : env) (doc : pyval) (st : charm) (missing : list string) :
  can_connect e = true →
  returns (generate_exporter_config e) doc [] →
  Some (fingerprint doc) ≠ current_config_hash st →
  _validate_required_options doc = Ok missing →
  missing ≠ [] →
  check_port doc = Ok "" →
  check_interval doc = Ok "" →
  ∃ st' evs,
    _configure e st = (Ok tt, st', evs)
    ∧ logged ERROR evs = [msg_missing (charm_option_of <$> missing)]
    ∧ unit_status st' = blocked.
Proof.
  intros Hc Hgen Hne Hm Hsome Hp Hi.
  assert (Hv : validate_config doc = Raise (Exn ExporterConfigError (msg_missing missing))).
  { rewrite (validate_config_anatomy _ _ _ _ Hm Hp Hi). cbv zeta.
    destruct missing as [|o rest]; [contradiction|].
    change (msg_missing (o :: rest) ++ "" ++ "") with (msg_missing (o :: rest) ++ "").
    now rewrite append_empty_r. }
  rewrite (configure_unfold _ _ _ Hc Hgen). cbv zeta.
  rewrite bool_decide_eq_true_2 by exact Hne.
  rewrite (apply_changed_invalid _ _ _ _ _ Hv eq_refl).
  eexists _, _. split; [reflexivity|]. split; [|reflexivity].
  cbn [logged pass_head apply_head app exn_msg].
  unfold _validate_required_options in Hm.
  rewrite (missing_among_filter _ _ _ Hm). now rewrite translate_missing_line.
Qed.

(** X18 at options without customer and without cloud name. *)
Lemma missing_options_logged_by_charm_name_witness :
  ∃ st' evs,
    _configure
      (env_with (delete "customer" (delete "cloud-name" options_valid)) None None None)
      fresh = (Ok tt, st', evs)
    ∧ logged ERROR evs
      = [msg_missing (charm_option_of <$> ["customer.name"; "customer.cloud_name"])]
    ∧ unit_status st' = blocked.
Proof.
  apply (missing_options_logged_by_charm_name _
           (rendered (exporter_config_of
                        (env_with (delete "customer" (delete "cloud-name" options_valid))
                                  None None None) (SStr "CERT")))).
  - reflexivity.
  - intros st. vm_compute. reflexivity.
  - discriminate.
  - vm_compute. reflexivity.
  - discriminate.
  - vm_compute. reflexivity.
  - vm_compute. reflexivity.
Defined.

End operator_log.
